(** * bitrix24-python-rest: the [Bitrix24] client of [bitrix24/bitrix24.py]

    A shallow embedding of the client class: the domain normaliser
    ([_prepare_domain]), the parameter encoder ([_prepare_params]), the
    method invoker ([_call_method]) and the three retrieval idioms
    ([callMethodIter], [callMethod], [callMethodList]), followed by the
    properties of the specification that were checked against them.

    Python objects are modelled by the type [value]; raising is modelled by
    the [Raise] constructor of [result]; the HTTP transport ([requests]) is
    modelled by a world holding the replies still to come and the trace of
    what the client did (requests sent, seconds slept). *)

From Stdlib Require Import ZArith List String Ascii Bool Lia DecimalString.
Import ListNotations.
Local Open Scope list_scope.
Local Open Scope string_scope.

(** ** Python values *)

(** The objects that reach the client: what a JSON reply decodes to
    ([None], [bool], [int], [str], [list], [dict]) and what a caller hands
    over as keyword arguments (the same, and tuples).  A [dict] keeps its
    insertion order, which the encoder observes, so it is an association
    list; its keys are the text [str(key)] of the Python keys (JSON object
    keys and keyword names are [str] already).  Floats are left out. *)
#[warnings="-register-all"]
Inductive value : Type :=
| VNone
| VBool (b : bool)
| VInt (z : Z)
| VStr (s : string)
| VList (l : list value)
| VTuple (l : list value)
| VDict (d : list (string * value)).

Definition dict := list (string * value).

(** Exceptions the client raises or lets through. *)
Inductive exn : Type :=
| PyException (msg : string)        (* [raise Exception(msg)] *)
| BitrixError (r : value)           (* [raise BitrixError(r)] *)
| UnboundLocalError (var : string)  (* a local read before assignment *)
| KeyError (k : value)
| TypeError
| ValueError
| AttributeError
| TransportError (name : string).   (* anything else [requests] raises *)

Inductive result (A : Type) : Type :=
| Ok (a : A)
| Raise (e : exn).
Arguments Ok {A} a.
Arguments Raise {A} e.

Definition bind_result {A B} (r : result A) (k : A -> result B) : result B :=
  match r with
  | Ok a => k a
  | Raise e => Raise e
  end.

(** *** Text of a value: [str(v)], which is what ["{0}".format(v)] inserts *)

Definition str_of_Z (z : Z) : string := NilZero.string_of_int (Z.to_int z).
Definition str_of_nat (n : nat) : string := str_of_Z (Z.of_nat n).

Fixpoint has_char (c : ascii) (s : string) : bool :=
  match s with
  | EmptyString => false
  | String a s' => Ascii.eqb a c || has_char c s'
  end.

Definition hex_digit (n : N) : ascii :=
  ascii_of_N (if N.ltb n 10 then 48 + n else 87 + n).

Definition backslash : ascii := "092"%char.
Definition dquote : ascii := "034"%char.
Definition squote : ascii := "039"%char.

Definition escaped (c : ascii) : string := String backslash (String c "").

(** One character of [repr] of a [str] quoted with [q].  Bytes from 0x80
    are kept: they encode printable text here. *)
Definition repr_char (q : ascii) (c : ascii) : string :=
  let n := N_of_ascii c in
  if Ascii.eqb c backslash then escaped backslash
  else if Ascii.eqb c q then escaped q
  else if N.eqb n 9 then escaped "t"
  else if N.eqb n 10 then escaped "n"
  else if N.eqb n 13 then escaped "r"
  else if N.ltb n 32 || N.eqb n 127
       then String backslash
              (String "x" (String (hex_digit (n / 16)) (String (hex_digit (n mod 16)) "")))
  else String c "".

Fixpoint repr_chars (q : ascii) (s : string) : string :=
  match s with
  | EmptyString => ""
  | String c s' => repr_char q c ++ repr_chars q s'
  end.

(** [repr] of a [str]: single quotes, unless the text has a single quote
    and no double quote. *)
Definition repr_str (s : string) : string :=
  let q := if has_char squote s && negb (has_char dquote s) then dquote else squote in
  String q (repr_chars q s ++ String q "").

Fixpoint py_repr (v : value) : string :=
  match v with
  | VNone => "None"
  | VBool true => "True"
  | VBool false => "False"
  | VInt z => str_of_Z z
  | VStr s => repr_str s
  | VList l => "[" ++ String.concat ", " (map py_repr l) ++ "]"
  | VTuple l =>
      match l with
      | [x] => "(" ++ py_repr x ++ ",)"
      | _ => "(" ++ String.concat ", " (map py_repr l) ++ ")"
      end
  | VDict d =>
      "{" ++ String.concat ", " (map (fun kv => repr_str (fst kv) ++ ": " ++ py_repr (snd kv)) d) ++ "}"
  end.

Definition py_str (v : value) : string :=
  match v with
  | VStr s => s
  | _ => py_repr v
  end.

(** *** Truth value, containers, operators *)

(** [bool(v)], as [if v:] and [a or b] use it. *)
Definition truthy (v : value) : bool :=
  match v with
  | VNone => false
  | VBool b => b
  | VInt z => negb (Z.eqb z 0)
  | VStr s => negb (String.eqb s "")
  | VList l | VTuple l => match l with [] => false | _ => true end
  | VDict d => match d with [] => false | _ => true end
  end.

(** [a or b] *)
Definition py_or (a b : value) : value := if truthy a then a else b.

(** [bool] is a subclass of [int]. *)
Definition as_int (v : value) : option Z :=
  match v with
  | VInt z => Some z
  | VBool b => Some (if b then 1 else 0)%Z
  | _ => None
  end.

Fixpoint dict_get (d : dict) (k : string) : option value :=
  match d with
  | [] => None
  | (k', v) :: rest => if String.eqb k' k then Some v else dict_get rest k
  end.

Definition dict_has (d : dict) (k : string) : bool :=
  match dict_get d k with Some _ => true | None => false end.

(** [d[k] = v]: a key already present keeps its place. *)
Fixpoint dict_set (d : dict) (k : string) (v : value) : dict :=
  match d with
  | [] => [(k, v)]
  | (k', v') :: rest =>
      if String.eqb k' k then (k', v) :: rest else (k', v') :: dict_set rest k v
  end.

(** [d.update(other)] *)
Definition dict_update (d other : dict) : dict :=
  fold_left (fun acc kv => dict_set acc (fst kv) (snd kv)) other d.

(** [a in b] on two [str]: [a] occurs in [b]. *)
Fixpoint is_substring (a b : string) : bool :=
  String.prefix a b ||
  match b with
  | EmptyString => false
  | String _ b' => is_substring a b'
  end.

(** [a == b] *)
Fixpoint py_eq (a b : value) {struct a} : bool :=
  match a, b with
  | VNone, VNone => true
  | VBool x, VBool y => Bool.eqb x y
  | VBool x, VInt y => Z.eqb (if x then 1 else 0) y
  | VInt x, VBool y => Z.eqb x (if y then 1 else 0)
  | VInt x, VInt y => Z.eqb x y
  | VStr s, VStr t => String.eqb s t
  | VList l, VList m | VTuple l, VTuple m =>
      (fix all2 (l m : list value) : bool :=
         match l, m with
         | [], [] => true
         | x :: l', y :: m' => py_eq x y && all2 l' m'
         | _, _ => false
         end) l m
  | VDict d, VDict e =>
      Nat.eqb (List.length d) (List.length e) &&
      (fix sub (d : dict) : bool :=
         match d with
         | [] => true
         | (k, v) :: d' =>
             match dict_get e k with
             | Some v' => py_eq v v'
             | None => false
             end && sub d'
         end) d
  | _, _ => false
  end.

(** [a > b]: numbers by value, text and sequences lexicographically, a
    [TypeError] for operands that have no order. *)
Fixpoint py_gt (a b : value) {struct a} : result bool :=
  match a, b with
  | VBool x, VBool y => Ok (Z.gtb (if x then 1 else 0) (if y then 1 else 0))
  | VBool x, VInt y => Ok (Z.gtb (if x then 1 else 0) y)
  | VInt x, VBool y => Ok (Z.gtb x (if y then 1 else 0))
  | VInt x, VInt y => Ok (Z.gtb x y)
  | VStr s, VStr t => Ok (match String.compare s t with Gt => true | _ => false end)
  | VList l, VList m | VTuple l, VTuple m =>
      (fix lex (l m : list value) : result bool :=
         match l, m with
         | x :: l', y :: m' => if py_eq x y then lex l' m' else py_gt x y
         | _ :: _, [] => Ok true
         | [], _ => Ok false
         end) l m
  | _, _ => Raise TypeError
  end.

(** [v += 50] *)
Definition py_iadd (v : value) (n : Z) : result value :=
  match as_int v with
  | Some z => Ok (VInt (z + n))
  | None => Raise TypeError
  end.

(** [k in r] for a [str] [k] *)
Definition py_contains (k : string) (r : value) : result bool :=
  match r with
  | VDict d => Ok (dict_has d k)
  | VList l | VTuple l => Ok (existsb (fun x => py_eq x (VStr k)) l)
  | VStr s => Ok (is_substring k s)
  | VNone | VBool _ | VInt _ => Raise TypeError
  end.

(** [r[k]] for a [str] [k]: only a [dict] can be indexed by text. *)
Definition py_getitem (r : value) (k : string) : result value :=
  match r with
  | VDict d =>
      match dict_get d k with
      | Some v => Ok v
      | None => Raise (KeyError (VStr k))
      end
  | _ => Raise TypeError
  end.

(** ** Text splitting *)

(** [s.split(c)] for a one-character separator. *)
Fixpoint split (c : ascii) (s : string) : list string :=
  match s with
  | EmptyString => [""]
  | String a s' =>
      if Ascii.eqb a c then "" :: split c s'
      else match split c s' with
           | x :: rest => String a x :: rest
           | [] => [String a ""]
           end
  end.

(** The text before and after the first character satisfying [p]. *)
Fixpoint find_split (p : ascii -> bool) (s : string) : option (string * string) :=
  match s with
  | EmptyString => None
  | String a s' =>
      if p a then Some ("", s')
      else match find_split p s' with
           | Some (x, y) => Some (String a x, y)
           | None => None
           end
  end.

(** The text before and after the last occurrence of [c]. *)
Fixpoint rfind_split (c : ascii) (s : string) : option (string * string) :=
  match s with
  | EmptyString => None
  | String a s' =>
      match rfind_split c s' with
      | Some (x, y) => Some (String a x, y)
      | None => if Ascii.eqb a c then Some ("", s') else None
      end
  end.

(** [s.rsplit(c, 1)[0]]: what precedes the last [c], all of [s] without one. *)
Definition rsplit1_head (c : ascii) (s : string) : string :=
  match rfind_split c s with
  | Some (x, _) => x
  | None => s
  end.

(** ** [urllib.parse.urlparse] *)

Record ParseResult : Type := mkParseResult {
  scheme : string;
  netloc : string;
  path : string;
  params : string;
  query : string;
  fragment : string
}.

Definition between (lo hi : N) (c : ascii) : bool :=
  N.leb lo (N_of_ascii c) && N.leb (N_of_ascii c) hi.
Definition is_alpha (c : ascii) : bool := between 65 90 c || between 97 122 c.
Definition is_scheme_char (c : ascii) : bool :=
  is_alpha c || between 48 57 c || Ascii.eqb c "+" || Ascii.eqb c "-" || Ascii.eqb c ".".
Definition lower_char (c : ascii) : ascii :=
  if between 65 90 c then ascii_of_N (N_of_ascii c + 32) else c.

Fixpoint string_forallb (p : ascii -> bool) (s : string) : bool :=
  match s with
  | EmptyString => true
  | String a s' => p a && string_forallb p s'
  end.

Fixpoint string_map (f : ascii -> ascii) (s : string) : string :=
  match s with
  | EmptyString => ""
  | String a s' => String (f a) (string_map f s')
  end.

(** The text up to the first character satisfying [p], and the rest. *)
Fixpoint span_until (p : ascii -> bool) (s : string) : string * string :=
  match s with
  | EmptyString => ("", "")
  | String a s' =>
      if p a then ("", s)
      else let '(x, y) := span_until p s' in (String a x, y)
  end.

Definition uses_params : list string :=
  [""; "ftp"; "hdl"; "prospero"; "http"; "imap"; "https"; "shttp"; "rtsp";
   "rtspu"; "sip"; "sips"; "mms"; "sftp"; "tel"].

Definition in_list (s : string) (l : list string) : bool :=
  existsb (String.eqb s) l.

(** The library's [_splitparams]: the parameters of the last path segment. *)
Definition splitparams (url : string) : string * string :=
  match rfind_split "/" url with
  | Some (head, last) =>
      match find_split (Ascii.eqb ";") last with
      | Some (x, y) => (head ++ "/" ++ x, y)
      | None => (url, "")
      end
  | None =>
      match find_split (Ascii.eqb ";") url with
      | Some (x, y) => (x, y)
      | None => (url, "")
      end
  end.

(** A model of the standard library's [urlparse] for the closed examples of
    this file: the scheme, the authority after [//], then fragment, query
    and parameters are cut off the path.  Its validation of bracketed hosts
    and its stripping of control characters are not modelled; the general
    theorems below take the parser as a parameter instead. *)
Definition urlparse_model (url : string) : option ParseResult :=
  let '(sch, url) :=
    match find_split (Ascii.eqb ":") url with
    | Some (String c pre, post) =>
        if is_alpha c && string_forallb is_scheme_char pre
        then (string_map lower_char (String c pre), post)
        else ("", url)
    | _ => ("", url)
    end in
  let '(loc, url) :=
    match url with
    | String "/" (String "/" rest) =>
        span_until (fun c => Ascii.eqb c "/" || Ascii.eqb c "?" || Ascii.eqb c "#") rest
    | _ => ("", url)
    end in
  if xorb (has_char "[" loc) (has_char "]" loc) then None
  else
    let '(url, frag) :=
      match find_split (Ascii.eqb "#") url with
      | Some (x, y) => (x, y)
      | None => (url, "")
      end in
    let '(url, qry) :=
      match find_split (Ascii.eqb "?") url with
      | Some (x, y) => (x, y)
      | None => (url, "")
      end in
    let '(url, prm) :=
      if in_list sch uses_params && has_char ";" url then splitparams url
      else (url, "") in
    Some (mkParseResult sch loc url prm qry frag).

(** ** The client *)

(** [class Bitrix24]: the normalised endpoint and the timeout handed to
    every request. *)
Record Bitrix24 : Type := mkBitrix24 {
  domain : string;
  timeout : value
}.

Definition isinstance_str (v : value) : bool :=
  match v with VStr _ => true | _ => false end.
Definition isinstance_dict (v : value) : bool :=
  match v with VDict _ => true | _ => false end.

(** [l[i:j]] *)
Definition slice {A} (i j : nat) (l : list A) : list A := firstn (j - i) (skipn i l).

Section Domain.

(** [urllib.parse.urlparse], the collaborator that cuts a URL into its
    parts; [None] stands for the [ValueError] it raises on a URL it
    rejects. *)
Variable urlparse : string -> option ParseResult.

(** [Bitrix24._prepare_domain] *)
Definition _prepare_domain (dom : value) : result string :=
  if py_eq dom (VStr "") || negb (isinstance_str dom)
  then Raise (PyException "Empty domain")
  else
    match dom with
    | VStr url =>
        match urlparse url with
        | None => Raise ValueError
        | Some o =>
            match slice 2 4 (split "/" (path o)) with
            | [user_id; code] =>
                Ok (scheme o ++ "://" ++ netloc o ++ "/rest/" ++ user_id ++ "/" ++ code)
            | _ => Raise ValueError     (* the unpacking needs two items *)
            end
        end
    | _ => Raise TypeError
    end.

(** [Bitrix24.__init__] *)
Definition __init__ (dom : value) (tmo : value) : result Bitrix24 :=
  bind_result (_prepare_domain dom) (fun d => Ok (mkBitrix24 d tmo)).

End Domain.

(** [Bitrix24._prepare_params].  [ret += piece] over the items becomes the
    concatenation of the pieces in the same order. *)
Fixpoint _prepare_params (prm : value) (prev : string) : string :=
  match prm with
  | VDict d =>
      (fix items (kvs : dict) : string :=
         match kvs with
         | [] => ""
         | (key, val) :: rest =>
             (if isinstance_dict val then
                _prepare_params val
                  (if truthy (VStr prev) then prev ++ "[" ++ key ++ "]" else key)
              else
                match val with
                | VList ((_ :: _) as l) | VTuple ((_ :: _) as l) =>
                    (fix elems (offset : nat) (vs : list value) : string :=
                       match vs with
                       | [] => ""
                       | v :: vs' =>
                           (if isinstance_dict v then
                              _prepare_params v
                                (prev ++ "[" ++ key ++ "][" ++ str_of_nat offset ++ "]")
                            else if truthy (VStr prev) then
                              prev ++ "[" ++ key ++ "][" ++ str_of_nat offset ++ "]="
                                   ++ py_str v ++ "&"
                            else
                              key ++ "[" ++ str_of_nat offset ++ "]=" ++ py_str v ++ "&")
                           ++ elems (S offset) vs'
                       end) O l
                | _ =>
                    if truthy (VStr prev) then prev ++ "[" ++ key ++ "]=" ++ py_str val ++ "&"
                    else key ++ "=" ++ py_str val ++ "&"
                end)
             ++ items rest
         end) d
  | _ => ""
  end.

(** ** The transport and the world *)

Inductive verb : Type := GET | POST.

(** [requests.get(url, params=p, timeout=t)] or
    [requests.post(url, data=p, timeout=t)] *)
Record request : Type := mkRequest {
  rq_verb : verb;
  rq_url : string;
  rq_payload : string;
  rq_timeout : value
}.

(** What the client does to the outside: it sends a request or sleeps. *)
Inductive event : Type :=
| Sent (rq : request)
| Slept (seconds : Z).

(** What [requests.<verb>(...).json()] does with one request. *)
Inductive reply : Type :=
| Json (body : value)     (* the body decodes to [body] *)
| NotJson                 (* the decoder raises: a [ValueError] *)
| Fails (name : string).  (* the transport raises something else *)

(** The replies still to come, oldest first, and what the client did so
    far, oldest first.  With no reply left the transport fails. *)
Record world : Type := mkWorld {
  incoming : list reply;
  trace : list event
}.

Definition send (rq : request) (w : world) : reply * world :=
  (match incoming w with
   | [] => Fails "ConnectionError"
   | rp :: _ => rp
   end,
   mkWorld (tl (incoming w)) (trace w ++ [Sent rq])%list).

Definition sleep (seconds : Z) (w : world) : world :=
  mkWorld (incoming w) (trace w ++ [Slept seconds])%list.

(** A computation on the world: [None] when the fuel ran out, else what
    was returned or raised, and the world after. *)
Definition M (A : Type) : Type := world -> option (result A * world).

Definition post_prefixes : list string := ["add"; "update"; "delete"; "set"].

(** Whether [_call_method] posts: [method.rsplit('.', 1)[0] in [...]]. *)
Definition uses_post (method : string) : bool :=
  in_list (rsplit1_head "." method) post_prefixes.

(** The request [_call_method] builds: the URL of the method, the encoded
    parameters, and the verb. *)
Definition build_request (self : Bitrix24) (method : string) (prm : dict) : request :=
  let url := domain self ++ "/" ++ method ++ ".json" in
  let p := _prepare_params (VDict prm) "" in
  if uses_post method then mkRequest POST url p (timeout self)
  else mkRequest GET url p (timeout self).

(** The [try] block of [_call_method]: the local [r] afterwards ([None]
    while it is unbound) and the exception that left the block, if any. *)
Definition try_block (self : Bitrix24) (method : string) (prm : dict) (w : world)
  : (option value * option exn) * world :=
  let '(rp, w') := send (build_request self method prm) w in
  match rp with
  | Json body => ((Some body, None), w')
  | NotJson => ((None, Some ValueError), w')
  | Fails name => ((None, Some (TransportError name)), w')
  end.

(** [Bitrix24._call_method] *)
Fixpoint _call_method (fuel : nat) (self : Bitrix24) (method : string) (prm : dict)
  : M value :=
  fun w =>
  match fuel with
  | O => None
  | S fuel' =>
      let '((r, raised), w1) := try_block self method prm w in
      match raised with
      | Some ValueError =>
          (* except ValueError: *)
          match r with
          | None => Some (Raise (UnboundLocalError "r"), w1)
          | Some rv =>
              match py_getitem rv "error" with
              | Raise e => Some (Raise e, w1)
              | Ok (VStr err) =>
                  if negb (is_substring err "QUERY_LIMIT_EXCEEDED")
                  then Some (Raise (BitrixError rv), w1)
                  else _call_method fuel' self method prm (sleep 2 w1)
              | Ok _ => Some (Raise TypeError, w1)
              end
          end
      | Some e => Some (Raise e, w1)
      | None =>
          match r with
          | None => Some (Raise (UnboundLocalError "r"), w1)
          | Some rv =>
              match py_contains "error" rv with
              | Raise e => Some (Raise e, w1)
              | Ok true => Some (Raise (BitrixError rv), w1)
              | Ok false => Some (Ok rv, w1)
              end
          end
      end
  end.

(** ** Pagination *)

(** What a generator did when it was run to its end: the values it
    yielded, in order, and the exception that ended it, if one did. *)
Definition drained : Type := list value * option exn.

(** ['next' in r and r['total'] > params['start']] *)
Definition has_more (r : value) (prm : dict) : result bool :=
  bind_result (py_contains "next" r) (fun b =>
    if b then
      bind_result (py_getitem r "total") (fun total =>
        bind_result (py_getitem (VDict prm) "start") (fun start =>
          py_gt total start))
    else Ok false).

(** [yield r['result']] after the values [ys] *)
Definition yield_result (ys : list value) (r : value) : drained :=
  match py_getitem r "result" with
  | Ok v => ((ys ++ [v])%list, None)
  | Raise e => (ys, Some e)
  end.

(** [if 'start' not in params: params['start'] = 0] *)
Definition default_start (prm : dict) : dict :=
  if negb (dict_has prm "start") then dict_set prm "start" (VInt 0) else prm.

(** [Bitrix24.callMethodIter], drained.  Nothing is yielded before the
    deepest page has been fetched, so the requests come first and the
    yields follow while the recursion unwinds. *)
Fixpoint callMethodIter (fuel : nat) (self : Bitrix24) (method : string) (prm : dict)
  (w : world) : option (drained * world) :=
  match fuel with
  | O => None
  | S fuel' =>
      let prm := default_start prm in
      match _call_method fuel self method prm w with
      | None => None
      | Some (Raise e, w1) => Some (([], Some e), w1)
      | Some (Ok r, w1) =>
          match has_more r prm with
          | Raise e => Some (([], Some e), w1)
          | Ok true =>
              match bind_result (py_getitem (VDict prm) "start") (fun s => py_iadd s 50) with
              | Raise e => Some (([], Some e), w1)
              | Ok start' =>
                  match callMethodIter fuel' self method (dict_set prm "start" start') w1 with
                  | None => None
                  | Some ((ys, Some e), w2) => Some ((ys, Some e), w2)
                  | Some ((ys, None), w2) => Some (yield_result ys r, w2)
                  end
              end
          | Ok false => Some (yield_result [] r, w1)
          end
      end
  end.

(** The locals of [callMethod]: [result_dict], [result_list] and the loop
    variable [r], unbound before the first page. *)
Record merge_state : Type := mkMerge {
  result_dict : dict;
  result_list : list value;
  last_r : option value
}.

(** The body of [for r in self.callMethodIter(...)] *)
Definition merge_page (st : merge_state) (r : value) : merge_state :=
  match r with
  | VDict d => mkMerge (dict_update (result_dict st) d) (result_list st) (Some r)
  | VList l => mkMerge (result_dict st) (result_list st ++ l)%list (Some r)
  | _ => mkMerge (result_dict st) (result_list st) (Some r)
  end.

(** [return result_dict or result_list or r] *)
Definition merge_return (st : merge_state) : result value :=
  let acc := py_or (VDict (result_dict st)) (VList (result_list st)) in
  if truthy acc then Ok acc
  else match last_r st with
       | Some r => Ok r
       | None => Raise (UnboundLocalError "r")
       end.

(** [Bitrix24.callMethod] *)
Definition callMethod (fuel : nat) (self : Bitrix24) (method : string) (prm : dict)
  : M value :=
  fun w =>
  match callMethodIter fuel self method prm w with
  | None => None
  | Some ((ys, Some e), w') => Some (Raise e, w')
  | Some ((ys, None), w') =>
      Some (merge_return (fold_left merge_page ys (mkMerge [] [] None)), w')
  end.

(** [r.get(key, [])] when [r] is a [dict], else [r]; [key] defaults to
    [None], which no decoded object has as a key. *)
Definition select_rows (key : option string) (r : value) : value :=
  match r with
  | VDict d =>
      match key with
      | Some k => match dict_get d k with Some v => v | None => VList [] end
      | None => VList []
      end
  | _ => r
  end.

(** The [while True:] loop of [callMethodList]. *)
Fixpoint callMethodList_loop (fuel : nat) (self : Bitrix24) (method : string)
  (key : option string) (prm : dict) (id : value) (acc : list value) : M value :=
  fun w =>
  match fuel with
  | O => None
  | S fuel' =>
      (* params['filter'].update({'>ID': id}) *)
      match dict_get prm "filter" with
      | None => Some (Raise (KeyError (VStr "filter")), w)
      | Some (VDict flt) =>
          let prm := dict_set prm "filter" (VDict (dict_update flt [(">ID", id)])) in
          match _call_method fuel self method prm w with
          | None => None
          | Some (Raise e, w1) => Some (Raise e, w1)
          | Some (Ok envelope, w1) =>
              match py_getitem envelope "result" with
              | Raise e => Some (Raise e, w1)
              | Ok r =>
                  let r := if isinstance_dict r then select_rows key r else r in
                  if truthy r then
                    match r with
                    | VList rows | VTuple rows =>
                        (* result.extend(r); id = r[-1]['id'] *)
                        match py_getitem (last rows VNone) "id" with
                        | Ok id' =>
                            callMethodList_loop fuel' self method key prm id'
                              (acc ++ rows)%list w1
                        | Raise e => Some (Raise e, w1)
                        end
                    | VStr _ => Some (Raise TypeError, w1)
                    | VDict _ => Some (Raise (KeyError (VInt (-1))), w1)
                    | _ => Some (Raise TypeError, w1)
                    end
                  else Some (Ok (VList acc), w1)
              end
          end
      | Some _ => Some (Raise AttributeError, w)
      end
  end.

(** [Bitrix24.callMethodList] *)
Definition callMethodList (fuel : nat) (self : Bitrix24) (method : string)
  (id : value) (key : option string) (prm : dict) : M value :=
  let prm := dict_set prm "start" (VInt (-1)) in
  let prm := dict_set prm "order" (VDict [("ID", VStr "asc")]) in
  let prm := if negb (dict_has prm "filter") then dict_set prm "filter" (VDict []) else prm in
  callMethodList_loop fuel self method key prm id [].

(** ** Notions used by the statements *)

(** What the loop over a non-empty sequence value adds to [ret]: the inner
    loop of [_prepare_params], from index [offset] on. *)
Definition encode_elems (prev key : string) : nat -> list value -> string :=
  fix elems (offset : nat) (vs : list value) : string :=
    match vs with
    | [] => ""
    | v :: vs' =>
        (if isinstance_dict v then
           _prepare_params v (prev ++ "[" ++ key ++ "][" ++ str_of_nat offset ++ "]")
         else if truthy (VStr prev) then
           prev ++ "[" ++ key ++ "][" ++ str_of_nat offset ++ "]=" ++ py_str v ++ "&"
         else
           key ++ "[" ++ str_of_nat offset ++ "]=" ++ py_str v ++ "&")
        ++ elems (S offset) vs'
    end.

(** The formatted pieces [key=value&] that [_prepare_params] appends, one
    by one and in order, instead of their concatenation. *)
Fixpoint emitted (prm : value) (prev : string) : list string :=
  match prm with
  | VDict d =>
      (fix items (kvs : dict) : list string :=
         match kvs with
         | [] => []
         | (key, val) :: rest =>
             List.app
               (if isinstance_dict val then
                  emitted val (if truthy (VStr prev) then prev ++ "[" ++ key ++ "]" else key)
                else
                  match val with
                  | VList ((_ :: _) as l) | VTuple ((_ :: _) as l) =>
                      (fix elems (offset : nat) (vs : list value) : list string :=
                         match vs with
                         | [] => []
                         | v :: vs' =>
                             List.app
                               (if isinstance_dict v then
                                  emitted v
                                    (prev ++ "[" ++ key ++ "][" ++ str_of_nat offset ++ "]")
                                else if truthy (VStr prev) then
                                  [prev ++ "[" ++ key ++ "][" ++ str_of_nat offset ++ "]="
                                        ++ py_str v ++ "&"]
                                else
                                  [key ++ "[" ++ str_of_nat offset ++ "]=" ++ py_str v ++ "&"])
                               (elems (S offset) vs')
                         end) O l
                  | _ =>
                      if truthy (VStr prev)
                      then [prev ++ "[" ++ key ++ "]=" ++ py_str val ++ "&"]
                      else [key ++ "=" ++ py_str val ++ "&"]
                  end)
               (items rest)
         end) d
  | _ => []
  end.

(** The pieces put end to end. *)
Fixpoint concat_all (l : list string) : string :=
  match l with
  | [] => ""
  | x :: rest => x ++ concat_all rest
  end.

(** The pieces of the loop over a non-empty sequence value. *)
Definition emitted_elems (prev key : string) : nat -> list value -> list string :=
  fix elems (offset : nat) (vs : list value) : list string :=
    match vs with
    | [] => []
    | v :: vs' =>
        List.app
          (if isinstance_dict v then
             emitted v (prev ++ "[" ++ key ++ "][" ++ str_of_nat offset ++ "]")
           else if truthy (VStr prev) then
             [prev ++ "[" ++ key ++ "][" ++ str_of_nat offset ++ "]=" ++ py_str v ++ "&"]
           else
             [key ++ "[" ++ str_of_nat offset ++ "]=" ++ py_str v ++ "&"])
          (elems (S offset) vs')
    end.

(** [p] begins with [prev]. *)
Definition starts_with (prev p : string) : Prop := exists rest, p = prev ++ rest.

(** Induction on a value through the lists and mappings nested in it. *)
Section ValueInduction.

Variable P : value -> Prop.
Hypothesis P_none : P VNone.
Hypothesis P_bool : forall b, P (VBool b).
Hypothesis P_int : forall z, P (VInt z).
Hypothesis P_str : forall s, P (VStr s).
Hypothesis P_list : forall l, Forall P l -> P (VList l).
Hypothesis P_tuple : forall l, Forall P l -> P (VTuple l).
Hypothesis P_dict : forall d, Forall (fun kv => P (snd kv)) d -> P (VDict d).

Fixpoint value_nested_ind (v : value) : P v :=
  match v with
  | VNone => P_none
  | VBool b => P_bool b
  | VInt z => P_int z
  | VStr s => P_str s
  | VList l =>
      P_list l
        ((fix all (l : list value) : Forall P l :=
            match l with
            | [] => Forall_nil P
            | x :: l' => Forall_cons x (value_nested_ind x) (all l')
            end) l)
  | VTuple l =>
      P_tuple l
        ((fix all (l : list value) : Forall P l :=
            match l with
            | [] => Forall_nil P
            | x :: l' => Forall_cons x (value_nested_ind x) (all l')
            end) l)
  | VDict d =>
      P_dict d
        ((fix all (d : dict) : Forall (fun kv => P (snd kv)) d :=
            match d with
            | [] => Forall_nil _
            | kv :: d' => Forall_cons kv (value_nested_ind (snd kv)) (all d')
            end) d)
  end.

End ValueInduction.

(** The specification's reading of the dispatch rule: the text of the
    method name up to its first dot. *)
Definition first_segment (method : string) : string :=
  match find_split (Ascii.eqb ".") method with
  | Some (x, _) => x
  | None => method
  end.

(** What [_call_method] makes of the reply to its request. *)
Definition reply_outcome (rp : reply) : result value :=
  match rp with
  | Json body =>
      match py_contains "error" body with
      | Raise e => Raise e
      | Ok true => Raise (BitrixError body)
      | Ok false => Ok body
      end
  | NotJson => Raise (UnboundLocalError "r")
  | Fails name => Raise (TransportError name)
  end.

(** The reply the transport gives next. *)
Definition next_reply (w : world) : reply :=
  match incoming w with
  | [] => Fails "ConnectionError"
  | rp :: _ => rp
  end.

(** The world after one request. *)
Definition after_request (rq : request) (w : world) : world :=
  mkWorld (tl (incoming w)) (trace w ++ [Sent rq])%list.

(** A reply envelope without an [error] field and with a [result] field,
    whose [total] is an integer when it has a [next] field. *)
Definition well_formed_page (e : dict) : bool :=
  negb (dict_has e "error") && dict_has e "result" &&
  (if dict_has e "next"
   then match dict_get e "total" with Some (VInt _) => true | _ => false end
   else true).

(** The envelope has a [next] field and its [total] exceeds [start]. *)
Definition page_has_more (e : dict) (start : Z) : bool :=
  dict_has e "next" &&
  match dict_get e "total" with
  | Some (VInt total) => Z.gtb total start
  | _ => false
  end.

(** The [result] payload of an envelope. *)
Definition page_result (e : dict) : value :=
  match dict_get e "result" with
  | Some v => v
  | None => VNone
  end.

(** The request of the offset iteration for the window that begins at
    [start]. *)
Definition window_request (self : Bitrix24) (method : string) (prm : dict) (start : Z)
  : event :=
  Sent (build_request self method (dict_set (default_start prm) "start" (VInt start))).

(** What the pages bind [k] to when they are merged in order: the binding
    of the last mapping-shaped page that has the key. *)
Definition merged_lookup (ys : list value) (k : string) : option value :=
  fold_left
    (fun found y =>
       match y with
       | VDict d => match dict_get d k with Some v => Some v | None => found end
       | _ => found
       end)
    ys None.

(** The elements of the sequence-shaped pages, in order. *)
Definition list_pages (ys : list value) : list value :=
  flat_map (fun y => match y with VList l => l | _ => [] end) ys.

(** No key occurs twice, as in every Python [dict]. *)
Fixpoint unique_keys (d : dict) : bool :=
  match d with
  | [] => true
  | (k, _) :: rest => negb (dict_has rest k) && unique_keys rest
  end.

Definition page_keys_unique (y : value) : bool :=
  match y with
  | VDict d => unique_keys d
  | _ => true
  end.



(** The parameters of a cursor call for the rows after [id]: [start] is
    -1, [order] is ascending [ID], and the filter, the caller's or an empty
    one, has its [>ID] clause set to [id]. *)
Definition cursor_params (prm : dict) (id : value) : dict :=
  let prm := dict_set prm "start" (VInt (-1)) in
  let prm := dict_set prm "order" (VDict [("ID", VStr "asc")]) in
  let flt := match dict_get prm "filter" with Some (VDict f) => f | _ => [] end in
  dict_set prm "filter" (VDict (dict_set flt ">ID" id)).

(** The caller passed no [filter] or a mapping. *)
Definition filter_is_mapping (prm : dict) : bool :=
  match dict_get prm "filter" with
  | Some (VDict _) | None => true
  | Some _ => false
  end.

(** The rows of an envelope: its [result], or what [key] selects in it when
    it is a mapping. *)
Definition selected_rows (key : option string) (e : dict) : option value :=
  match dict_get e "result" with
  | Some r => Some (if isinstance_dict r then select_rows key r else r)
  | None => None
  end.

(** A page of the cursor fetch: the envelope, the rows in it, and the
    [id] field of the last row. *)
Record cursor_page : Type := mkCursorPage {
  cp_envelope : dict;
  cp_rows : list value;
  cp_cursor : value
}.

Definition cursor_page_ok (key : option string) (p : cursor_page) : Prop :=
  dict_has (cp_envelope p) "error" = false
  /\ selected_rows key (cp_envelope p) = Some (VList (cp_rows p))
  /\ cp_rows p <> []
  /\ py_getitem (last (cp_rows p) VNone) "id" = Ok (cp_cursor p).

(** An envelope with no rows: what is selected in it is false as a
    condition. *)
Definition page_is_empty (key : option string) (e : dict) : bool :=
  match selected_rows key e with
  | Some r => negb (truthy r)
  | None => false
  end.




(** ** Notions used by the further properties *)

(** A piece of the wire format: a name, an equals sign, a text and an
    ampersand. *)
Definition is_pair_piece (p : string) : Prop :=
  exists name text, p = name ++ "=" ++ text ++ "&".

(** The pieces [name[i]=text&] for the elements of a sequence, the indices
    counted from [offset]. *)
Definition indexed_pairs (name : string) (offset : nat) (l : list value) : list string :=
  map (fun iv => name ++ "[" ++ str_of_nat (fst iv) ++ "]=" ++ py_str (snd iv) ++ "&")
      (combine (seq offset (List.length l)) l).

(** The mapping that binds the first key to a mapping that binds the
    second key, and so on down to [leaf]. *)
Fixpoint nest (keys : list string) (leaf : value) : value :=
  match keys with
  | [] => leaf
  | k :: keys' => VDict [(k, nest keys' leaf)]
  end.

(** A value the encoder formats with [str]: neither a mapping nor a
    non-empty sequence. *)
Definition is_leaf (v : value) : bool :=
  match v with
  | VDict _ => false
  | VList (_ :: _) | VTuple (_ :: _) => false
  | _ => true
  end.

(** The bracketed keys of a path below its first key. *)
Definition brackets (keys : list string) : string :=
  concat_all (map (fun k => "[" ++ k ++ "]") keys).



(** What a run of mappings binds [k] to when the first mapping that has
    the key wins. *)
Fixpoint first_binding (ds : list dict) (k : string) : option value :=
  match ds with
  | [] => None
  | d :: ds' =>
      match dict_get d k with
      | Some v => Some v
      | None => first_binding ds' k
      end
  end.

(** The parameters of a cursor call, given the parameters [P0] the loop
    started from and the filter [f0] in them. *)
Definition cursor_of (P0 f0 : dict) (id : value) : dict :=
  dict_set P0 "filter" (VDict (dict_set f0 ">ID" id)).

(** What holds of the parameters [cur] at the head of every iteration of
    the cursor loop: they are [P0] but for the filter, which is a mapping
    equal to [f0] but for its [>ID] clause. *)
Definition cursor_state (P0 f0 cur : dict) : Prop :=
  (forall X, dict_set cur "filter" X = dict_set P0 "filter" X)
  /\ exists flt, dict_get cur "filter" = Some (VDict flt)
                 /\ forall c, dict_set flt ">ID" c = dict_set f0 ">ID" c.

(** The filter the caller passed, empty when there is none. *)
Definition caller_filter (prm : dict) : dict :=
  match dict_get prm "filter" with
  | Some (VDict f) => f
  | _ => []
  end.

(** ** The parameter encoder *)

Arguments truthy : simpl never.
Arguments py_str : simpl never.
Arguments str_of_nat : simpl never.

Lemma append_nil_r (s : string) : s ++ "" = s.
Proof. induction s as [|c s IH]; simpl; [reflexivity | now rewrite IH]. Qed.

Lemma append_assoc (a b c : string) : (a ++ b) ++ c = a ++ (b ++ c).
Proof. induction a as [|x a IH]; simpl; [reflexivity | now rewrite IH]. Qed.

Lemma concat_all_app (l m : list string) :
  concat_all (l ++ m)%list = concat_all l ++ concat_all m.
Proof.
  induction l as [|x l IH]; simpl; [reflexivity|].
  now rewrite IH, append_assoc.
Qed.

Lemma prefix_append (p s : string) : String.prefix p (p ++ s) = true.
Proof.
  induction p as [|c p IH]; simpl.
  - now destruct s.
  - destruct (ascii_dec c c) as [_|ne]; [exact IH | now elim ne].
Qed.

(** The encoding of a mapping is the encoding of its first item followed by
    that of the others. *)
Lemma prepare_params_cons (kv : string * value) (rest : dict) (prev : string) :
  _prepare_params (VDict (kv :: rest)) prev
  = _prepare_params (VDict [kv]) prev ++ _prepare_params (VDict rest) prev.
Proof.
  destruct kv as [key val]. simpl. now rewrite append_nil_r.
Qed.

Lemma prepare_params_app (d1 d2 : dict) (prev : string) :
  _prepare_params (VDict (d1 ++ d2)%list) prev
  = _prepare_params (VDict d1) prev ++ _prepare_params (VDict d2) prev.
Proof.
  induction d1 as [|kv d1 IH]; [reflexivity|].
  rewrite <- app_comm_cons, prepare_params_cons, IH.
  rewrite (prepare_params_cons kv d1), append_assoc. reflexivity.
Qed.

(** A non-empty sequence value is encoded element by element. *)
Lemma prepare_params_seq (key : string) (x : value) (l : list value) (prev : string) :
  _prepare_params (VDict [(key, VList (x :: l))]) prev = encode_elems prev key 0 (x :: l)
  /\ _prepare_params (VDict [(key, VTuple (x :: l))]) prev = encode_elems prev key 0 (x :: l).
Proof. split; simpl; now rewrite append_nil_r. Qed.

Lemma encode_elems_app (prev key : string) (l1 l2 : list value) (offset : nat) :
  encode_elems prev key offset (l1 ++ l2)%list
  = encode_elems prev key offset l1 ++ encode_elems prev key (List.length l1 + offset) l2.
Proof.
  revert offset. induction l1 as [|v l1 IH]; intro offset; [reflexivity|].
  simpl. rewrite IH, append_assoc. now rewrite Nat.add_succ_r.
Qed.

Lemma emitted_cons (kv : string * value) (rest : dict) (prev : string) :
  emitted (VDict (kv :: rest)) prev
  = (emitted (VDict [kv]) prev ++ emitted (VDict rest) prev)%list.
Proof.
  destruct kv as [key val]. simpl. now rewrite app_nil_r.
Qed.

Lemma emitted_seq (key : string) (x : value) (l : list value) (prev : string) :
  emitted (VDict [(key, VList (x :: l))]) prev = emitted_elems prev key 0 (x :: l)
  /\ emitted (VDict [(key, VTuple (x :: l))]) prev = emitted_elems prev key 0 (x :: l).
Proof. split; simpl; now rewrite app_nil_r. Qed.

(** What is said of a value and of the elements of a sequence value. *)
Definition deeply (Q : value -> Prop) (v : value) : Prop :=
  Q v /\
  match v with
  | VList l | VTuple l => Forall Q l
  | _ => True
  end.

Lemma deeply_intro (Q : value -> Prop) :
  (forall v, isinstance_dict v = false -> Q v) ->
  (forall d, Forall (fun kv => deeply Q (snd kv)) d -> Q (VDict d)) ->
  forall v, Q v.
Proof.
  intros Hscalar Hdict v.
  enough (H : deeply Q v) by exact (proj1 H).
  induction v as [| b | z | s | l IH | l IH | d IH] using value_nested_ind;
    try (split; [now apply Hscalar | exact I]).
  - split; [now apply Hscalar|]. eapply Forall_impl; [|exact IH]. now intros x [H _].
  - split; [now apply Hscalar|]. eapply Forall_impl; [|exact IH]. now intros x [H _].
  - split; [|exact I]. now apply Hdict.
Qed.

(** The pieces, put end to end, are the encoding. *)
Lemma emitted_elems_concat (prev key : string) (l : list value) :
  Forall (fun v => forall p, concat_all (emitted v p) = _prepare_params v p) l ->
  forall offset,
    concat_all (emitted_elems prev key offset l) = encode_elems prev key offset l.
Proof.
  induction 1 as [|v l Hv _ IH]; intro offset; [reflexivity|].
  simpl. rewrite concat_all_app, IH. f_equal.
  destruct (isinstance_dict v); [apply Hv|].
  destruct (truthy (VStr prev)); simpl; now rewrite append_nil_r.
Qed.

Lemma emitted_concat (v : value) :
  forall prev, concat_all (emitted v prev) = _prepare_params v prev.
Proof.
  revert v.
  apply (deeply_intro (fun v => forall prev, concat_all (emitted v prev) = _prepare_params v prev)).
  - intros v Hv prev. now destruct v.
  - intros d Hd prev. induction Hd as [|[key val] rest [Hval Hsub] _ IH]; [reflexivity|].
    rewrite emitted_cons, prepare_params_cons, concat_all_app, IH. f_equal.
    simpl in Hval, Hsub.
    destruct val as [| b | z | s | l | l | e];
      try (simpl; destruct (truthy (VStr prev)); simpl; now rewrite !append_nil_r).
    + destruct l as [|x l].
      * simpl; destruct (truthy (VStr prev)); simpl; now rewrite !append_nil_r.
      * rewrite (proj1 (emitted_seq key x l prev)), (proj1 (prepare_params_seq key x l prev)).
        now apply emitted_elems_concat.
    + destruct l as [|x l].
      * simpl; destruct (truthy (VStr prev)); simpl; now rewrite !append_nil_r.
      * rewrite (proj2 (emitted_seq key x l prev)), (proj2 (prepare_params_seq key x l prev)).
        now apply emitted_elems_concat.
    + simpl. rewrite app_nil_r, append_nil_r. apply Hval.
Qed.

Lemma starts_with_weaken (prev more p : string) :
  starts_with (prev ++ more) p -> starts_with prev p.
Proof.
  intros [rest ->]. exists (more ++ rest). apply append_assoc.
Qed.

Lemma truthy_str (s : string) : s <> "" -> truthy (VStr s) = true.
Proof.
  intro H. unfold truthy. destruct (String.eqb_spec s ""); [contradiction | reflexivity].
Qed.

Lemma emitted_elems_prefix (prev key : string) (l : list value) :
  prev <> "" ->
  Forall (fun v => forall p, p <> "" -> Forall (starts_with p) (emitted v p)) l ->
  forall offset, Forall (starts_with prev) (emitted_elems prev key offset l).
Proof.
  intros Hprev. induction 1 as [|v l Hv _ IH]; intro offset; [constructor|].
  simpl. apply Forall_app. split; [|apply IH].
  destruct (isinstance_dict v).
  - eapply Forall_impl; [|apply Hv].
    + intros p. apply starts_with_weaken.
    + destruct prev; [contradiction | discriminate].
  - rewrite (truthy_str prev Hprev). constructor; [|constructor]. now eexists.
Qed.

(** Below a non-empty prefix every piece begins with that prefix. *)
Lemma emitted_prefix (v : value) :
  forall prev, prev <> "" -> Forall (starts_with prev) (emitted v prev).
Proof.
  revert v.
  apply (deeply_intro
           (fun v => forall prev, prev <> "" -> Forall (starts_with prev) (emitted v prev))).
  - intros v Hv prev _. destruct v; try constructor. now simpl in Hv.
  - intros d Hd prev Hprev.
    induction Hd as [|[key val] rest [Hval Hsub] _ IH]; [constructor|].
    rewrite emitted_cons. apply Forall_app. split; [|exact IH].
    simpl in Hval, Hsub.
    destruct val as [| b | z | s | l | l | e];
      try (simpl; rewrite (truthy_str prev Hprev); constructor; [now eexists | constructor]).
    + destruct l as [|x l].
      * simpl; rewrite (truthy_str prev Hprev); constructor; [now eexists | constructor].
      * rewrite (proj1 (emitted_seq key x l prev)). now apply emitted_elems_prefix.
    + destruct l as [|x l].
      * simpl; rewrite (truthy_str prev Hprev); constructor; [now eexists | constructor].
      * rewrite (proj2 (emitted_seq key x l prev)). now apply emitted_elems_prefix.
    + simpl. rewrite app_nil_r.
      destruct prev as [|c prev]; [contradiction|].
      eapply Forall_impl; [|apply Hval; discriminate].
      intros p. apply starts_with_weaken.
Qed.

Lemma encode_elems_dict (key : string) (l1 l2 : list value) (e : dict) :
  encode_elems "" key 0 (l1 ++ VDict e :: l2)%list
  = encode_elems "" key 0 l1
    ++ _prepare_params (VDict e) ("[" ++ key ++ "][" ++ str_of_nat (List.length l1) ++ "]")
    ++ encode_elems "" key (S (List.length l1)) l2.
Proof.
  rewrite encode_elems_app, Nat.add_0_r. reflexivity.
Qed.

Lemma starts_with_prefix (prev p : string) :
  starts_with prev p -> String.prefix prev p = true.
Proof. intros [rest ->]. apply prefix_append. Qed.

(** C1, as the specification states it, fails: the mapping with one key
    bound to an empty list does not encode to the empty text. *)
Lemma empty_sequence_is_not_dropped :
  _prepare_params (VDict [("a", VList [])]) "" <> "".
Proof. vm_compute. discriminate. Qed.

(** C1 (amended): a top-level key whose value is an empty sequence is
    encoded like a scalar, as the key, an equals sign, the text of the empty
    sequence ([[]] for a list, [()] for a tuple) and an ampersand, between
    the encodings of the keys before and after it; the mapping of [a] to the
    empty list encodes to [a=[]&]. *)
Theorem prepare_params_empty_sequence (d1 d2 : dict) (key : string) :
  _prepare_params (VDict (d1 ++ (key, VList []) :: d2)%list) ""
  = _prepare_params (VDict d1) "" ++ (key ++ "=[]&") ++ _prepare_params (VDict d2) ""
  /\ _prepare_params (VDict (d1 ++ (key, VTuple []) :: d2)%list) ""
     = _prepare_params (VDict d1) "" ++ (key ++ "=()&") ++ _prepare_params (VDict d2) ""
  /\ _prepare_params (VDict [("a", VList [])]) "" = "a=[]&".
Proof.
  repeat split.
  - rewrite prepare_params_app, prepare_params_cons. f_equal.
    f_equal. simpl. now rewrite append_nil_r.
  - rewrite prepare_params_app, prepare_params_cons. f_equal.
    f_equal. simpl. now rewrite append_nil_r.
Qed.

(** C10: at the top level, where the parent prefix is empty, a mapping met
    at index [i] of the sequence bound to [key] is encoded under the prefix
    [[key][i]], the parent, the bracketed key and the bracketed index, so
    every piece emitted for it begins with that bracketed key; the mapping
    of [a] to a list holding the mapping of [b] to 1 encodes to
    [[a][0][b]=1&]. *)
Theorem prepare_params_top_level_sequence_of_mappings
  (d1 d2 : dict) (key : string) (l1 l2 : list value) (e : dict) :
  let bracketed := "[" ++ key ++ "][" ++ str_of_nat (List.length l1) ++ "]" in
  _prepare_params (VDict (d1 ++ (key, VList (l1 ++ VDict e :: l2)) :: d2)%list) ""
  = _prepare_params (VDict d1) ""
    ++ (encode_elems "" key 0 l1
        ++ _prepare_params (VDict e) bracketed
        ++ encode_elems "" key (S (List.length l1)) l2)
    ++ _prepare_params (VDict d2) ""
  /\ _prepare_params (VDict (d1 ++ (key, VTuple (l1 ++ VDict e :: l2)) :: d2)%list) ""
     = _prepare_params (VDict d1) ""
       ++ (encode_elems "" key 0 l1
           ++ _prepare_params (VDict e) bracketed
           ++ encode_elems "" key (S (List.length l1)) l2)
       ++ _prepare_params (VDict d2) ""
  /\ concat_all (emitted (VDict e) bracketed) = _prepare_params (VDict e) bracketed
  /\ Forall (fun piece => String.prefix bracketed piece = true) (emitted (VDict e) bracketed)
  /\ _prepare_params (VDict [("a", VList [VDict [("b", VInt 1)]])]) "" = "[a][0][b]=1&".
Proof.
  intro bracketed.
  assert (Hne : exists x l, (l1 ++ VDict e :: l2)%list = x :: l)
    by (destruct l1; simpl; eauto).
  destruct Hne as (x & l & Hxl).
  split; [|split; [|split; [|split]]].
  - rewrite prepare_params_app, prepare_params_cons. f_equal. f_equal.
    rewrite Hxl, (proj1 (prepare_params_seq key x l "")), <- Hxl.
    apply encode_elems_dict.
  - rewrite prepare_params_app, prepare_params_cons. f_equal. f_equal.
    rewrite Hxl, (proj2 (prepare_params_seq key x l "")), <- Hxl.
    apply encode_elems_dict.
  - apply emitted_concat.
  - eapply Forall_impl; [|apply emitted_prefix; discriminate].
    intros p. apply starts_with_prefix.
  - reflexivity.
Qed.

(** ** The domain normaliser *)



(** The unpacking of [path.split('/')[2:4]] goes through exactly when the
    split has four items or more. *)
Lemma slice_2_4 {A} (l : list A) :
  (4 <= List.length l -> exists a b, slice 2 4 l = [a; b])
  /\ (List.length l < 4 -> forall a b, slice 2 4 l <> [a; b]).
Proof.
  split.
  - intro H. destruct l as [|x0 [|x1 [|x2 [|x3 l]]]]; simpl in H; try lia.
    now exists x2, x3.
  - intros H a b. destruct l as [|x0 [|x1 [|x2 [|x3 l]]]]; simpl in H; try lia;
      discriminate.
Qed.

(** *** The model parser on a URL made of a scheme, a host and a path *)


















(** C8, as the specification states it, fails: a non-empty text whose path
    has fewer than three slashes makes the construction raise. *)
Lemma init_raises_on_short_path :
  py_eq (VStr "https://example.bitrix24.com/rest/1") (VStr "") = false
  /\ isinstance_str (VStr "https://example.bitrix24.com/rest/1") = true
  /\ __init__ urlparse_model (VStr "https://example.bitrix24.com/rest/1") (VInt 60)
     = Raise ValueError.
Proof. repeat split. Qed.

(** C8 (amended): construction raises the exception with the message
    [Empty domain] exactly when the domain is the empty text or is not a
    text; for any other domain it succeeds when the parser accepts the URL
    and its path, split on the slash, has four items or more, and it raises
    a [ValueError] otherwise. *)
Theorem init_outcomes
  (urlparse : string -> option ParseResult) (dom tmo : value) :
  (__init__ urlparse dom tmo = Raise (PyException "Empty domain")
   <-> dom = VStr "" \/ isinstance_str dom = false)
  /\ (forall url, dom = VStr url -> url <> "" ->
      match urlparse url with
      | None => __init__ urlparse dom tmo = Raise ValueError
      | Some o =>
          if Nat.leb 4 (List.length (split "/" (path o)))
          then exists endpoint, __init__ urlparse dom tmo = Ok (mkBitrix24 endpoint tmo)
          else __init__ urlparse dom tmo = Raise ValueError
      end).
Proof.
  assert (Hstr : forall url, url <> "" ->
            __init__ urlparse (VStr url) tmo
            = match urlparse url with
              | None => Raise ValueError
              | Some o =>
                  match slice 2 4 (split "/" (path o)) with
                  | [user_id; code] =>
                      Ok (mkBitrix24
                            (scheme o ++ "://" ++ netloc o ++ "/rest/" ++ user_id ++ "/" ++ code)
                            tmo)
                  | _ => Raise ValueError
                  end
              end).
  { intros url Hurl. unfold __init__, _prepare_domain.
    replace (py_eq (VStr url) (VStr "")) with false
      by (simpl; symmetry; now apply String.eqb_neq).
    simpl. destruct (urlparse url) as [o|]; [|reflexivity].
    destruct (slice 2 4 (split "/" (path o))) as [|a [|b [|c l]]]; reflexivity. }
  split.
  - split.
    + intro H. destruct dom as [| b | z | s | l | l | d]; try (right; reflexivity).
      destruct (String.eqb_spec s "") as [-> | Hs]; [now left|].
      rewrite (Hstr s Hs) in H.
      destruct (urlparse s) as [o|]; [|discriminate].
      destruct (slice 2 4 (split "/" (path o))) as [|a [|b [|c l]]]; discriminate.
    + intros [-> | H]; [reflexivity|].
      destruct dom; try reflexivity. discriminate.
  - intros url -> Hurl. rewrite (Hstr url Hurl).
    destruct (urlparse url) as [o|]; [|reflexivity].
    destruct (Nat.leb_spec 4 (List.length (split "/" (path o)))) as [Hlen | Hlen].
    + destruct (proj1 (slice_2_4 _) Hlen) as (a & b & ->). now eexists.
    + pose proof (proj2 (slice_2_4 (split "/" (path o))) Hlen) as Hno.
      destruct (slice 2 4 (split "/" (path o))) as [|a [|b [|c l]]]; try reflexivity.
      now elim (Hno a b).
Qed.

(** ** The method invoker *)

(** When the handler of [ValueError] runs, the local [r] is unbound: the
    assignment is the last thing the [try] block does. *)
Lemma try_block_unbound (self : Bitrix24) (method : string) (prm : dict) (w : world) :
  match try_block self method prm w with
  | ((r, Some _), _) => r = None
  | ((r, None), _) => r <> None
  end.
Proof.
  unfold try_block, send.
  destruct (incoming w) as [|[body | | name] rest]; simpl; congruence.
Qed.

(** One call sends one request and never sleeps: whatever the reply, the
    retry after the two-second pause is not reached. *)
Lemma call_method_step (fuel : nat) (self : Bitrix24) (method : string) (prm : dict)
  (w : world) :
  _call_method (S fuel) self method prm w
  = Some (reply_outcome (next_reply w), after_request (build_request self method prm) w).
Proof.
  unfold next_reply, after_request. simpl. unfold try_block, send.
  destruct (incoming w) as [|[body | | name] rest]; simpl; try reflexivity.
  destruct (py_contains "error" body) as [[|]|e]; reflexivity.
Qed.

Lemma in_list_In (s : string) (l : list string) : in_list s l = true <-> In s l.
Proof.
  unfold in_list. rewrite existsb_exists. split.
  - intros (x & Hx & Heq). apply String.eqb_eq in Heq. now subst.
  - intro H. exists s. split; [exact H | apply String.eqb_refl].
Qed.

Lemma rfind_split_none (c : ascii) (s : string) :
  rfind_split c s = None <-> has_char c s = false.
Proof.
  induction s as [|a s IH]; simpl; [tauto|].
  destruct (rfind_split c s) as [[x y]|].
  - split; [discriminate|]. intro H. apply orb_false_iff in H.
    destruct H as [_ H]. apply IH in H. discriminate.
  - destruct (Ascii.eqb a c); simpl.
    + split; discriminate.
    + split; intros _; [now apply IH | reflexivity].
Qed.

Lemma has_char_middle (c : ascii) (x y : string) : has_char c (x ++ String c y) = true.
Proof.
  induction x as [|d x IH]; simpl; [now rewrite Ascii.eqb_refl|].
  rewrite IH. apply orb_true_r.
Qed.

Lemma rfind_split_some (c : ascii) (s x y : string) :
  rfind_split c s = Some (x, y) <-> s = x ++ String c y /\ has_char c y = false.
Proof.
  revert x. induction s as [|a s IH]; intro x; simpl.
  - split; [discriminate|]. intros [H _]. destruct x; discriminate.
  - destruct (rfind_split c s) as [[x' y']|] eqn:E.
    + split.
      * intro H. injection H as <- <-.
        destruct (proj1 (IH x') eq_refl) as [-> Hy]. now split.
      * intros [H Hy]. destruct x as [|b x]; simpl in H; injection H as Ha Hs.
        -- apply rfind_split_none in Hy. congruence.
        -- pose proof (proj2 (IH x) (conj Hs Hy)) as Heq. injection Heq as -> ->.
           now subst.
    + apply rfind_split_none in E. split.
      * destruct (Ascii.eqb_spec a c) as [-> | Hne]; [|discriminate].
        intro H. injection H as <- <-. now split.
      * intros [H Hy]. destruct x as [|b x]; simpl in H; injection H as Ha Hs.
        -- subst. now rewrite Ascii.eqb_refl.
        -- pose proof (has_char_middle c x y). congruence.
Qed.

(** The text before the last dot, said without the splitting function. *)
Lemma rsplit1_head_spec (method head : string) :
  rsplit1_head "." method = head
  <-> (has_char "." method = false /\ method = head)
      \/ (exists last, has_char "." last = false /\ method = head ++ "." ++ last).
Proof.
  unfold rsplit1_head. destruct (rfind_split "." method) as [[x y]|] eqn:E.
  - apply rfind_split_some in E. destruct E as [-> Hy]. split.
    + intros <-. right. now exists y.
    + intros [[Hno _] | (last & Hlast & Heq)].
      * pose proof (has_char_middle "." x y). congruence.
      * change (head ++ "." ++ last) with (head ++ String "." last) in Heq.
        assert (H1 : rfind_split "." (x ++ String "." y) = Some (x, y))
          by (apply rfind_split_some; now split).
        assert (H2 : rfind_split "." (x ++ String "." y) = Some (head, last))
          by (apply rfind_split_some; now split).
        congruence.
  - apply rfind_split_none in E. split.
    + intros <-. now left.
    + intros [[_ H] | (last & Hlast & Heq)]; [exact H|].
      subst method. exfalso.
      pose proof (has_char_middle "." head last) as Hc.
      change (head ++ String "." last) with (head ++ "." ++ last) in Hc.
      congruence.
Qed.

(** C3, as the specification states it, fails: the first segment of
    [add.item.get] is [add], and the request goes out as a GET. *)
Lemma dispatch_ignores_first_segment :
  in_list (first_segment "add.item.get") post_prefixes = true
  /\ _call_method 1 (mkBitrix24 "https://example.bitrix24.com/rest/1/code" (VInt 60))
       "add.item.get" [("id", VInt 7)]
       (mkWorld [Json (VDict [("result", VBool true)])] [])
     = Some (Ok (VDict [("result", VBool true)]),
             mkWorld []
               [Sent (mkRequest GET "https://example.bitrix24.com/rest/1/code/add.item.get.json"
                        "id=7&" (VInt 60))]).
Proof. split; reflexivity. Qed.

(** C3 (amended): for every method name the invoker sends one request to
    the method's URL carrying the wire parameters, as a POST when the text
    before the last dot of the name (the whole name when it has no dot) is
    one of [add], [update], [delete], [set], and as a GET otherwise. *)
Theorem call_method_dispatch (fuel : nat) (self : Bitrix24) (method : string) (prm : dict)
  (w : world) :
  (exists res,
     _call_method (S fuel) self method prm w
     = Some (res,
             mkWorld (tl (incoming w))
               (trace w ++
                [Sent (mkRequest (if uses_post method then POST else GET)
                         (domain self ++ "/" ++ method ++ ".json")
                         (_prepare_params (VDict prm) "") (timeout self))])%list))
  /\ (uses_post method = true
      <-> exists head, In head post_prefixes
          /\ (method = head
              \/ exists last, has_char "." last = false /\ method = head ++ "." ++ last)).
Proof.
  split.
  - exists (reply_outcome (next_reply w)). rewrite call_method_step.
    unfold after_request, build_request. now destruct (uses_post method).
  - unfold uses_post. rewrite in_list_In. split.
    + intro Hin. exists (rsplit1_head "." method). split; [exact Hin|].
      destruct (proj1 (rsplit1_head_spec method _) eq_refl) as [[_ H] | H];
        [now left | now right].
    + intros (head & Hin & Hform).
      enough (rsplit1_head "." method = head) by now subst.
      apply rsplit1_head_spec. destruct Hform as [-> | H]; [left | now right].
      split; [|reflexivity].
      simpl in Hin. destruct Hin as [<- | [<- | [<- | [<- | []]]]]; reflexivity.
Qed.


(** C9: when the body of the response is not JSON, the handler of
    [ValueError] runs with the local [r] unbound, and the call ends in an
    [UnboundLocalError]: one request sent, no pause, no retry, no
    [BitrixError]. *)
Theorem call_method_not_json_unbound_local
  (fuel : nat) (self : Bitrix24) (method : string) (prm : dict)
  (rest : list reply) (tr : list event) :
  try_block self method prm (mkWorld (NotJson :: rest) tr)
  = ((None, Some ValueError),
     mkWorld rest (tr ++ [Sent (build_request self method prm)])%list)
  /\ _call_method (S fuel) self method prm (mkWorld (NotJson :: rest) tr)
     = Some (Raise (UnboundLocalError "r"),
             mkWorld rest (tr ++ [Sent (build_request self method prm)])%list)
  /\ (forall w,
        match try_block self method prm w with
        | ((r, Some _), _) => r = None
        | ((r, None), _) => r <> None
        end).
Proof.
  split; [reflexivity | split; [now rewrite call_method_step|]].
  apply try_block_unbound.
Qed.

(** ** Mappings *)

Lemma dict_get_set_same (d : dict) (k : string) (v : value) :
  dict_get (dict_set d k v) k = Some v.
Proof.
  induction d as [|[k' v'] d IH]; simpl.
  - now rewrite String.eqb_refl.
  - destruct (String.eqb k' k) eqn:E; simpl; rewrite E; [reflexivity | exact IH].
Qed.

Lemma dict_get_set_other (d : dict) (k k' : string) (v : value) :
  k <> k' -> dict_get (dict_set d k v) k' = dict_get d k'.
Proof.
  intro Hne. induction d as [|[k0 v0] d IH]; simpl.
  - apply String.eqb_neq in Hne. now rewrite Hne.
  - destruct (String.eqb_spec k0 k) as [-> | Hk]; simpl.
    + apply String.eqb_neq in Hne. now rewrite Hne.
    + now rewrite IH.
Qed.

Lemma dict_set_set (d : dict) (k : string) (v v' : value) :
  dict_set (dict_set d k v) k v' = dict_set d k v'.
Proof.
  induction d as [|[k0 v0] d IH]; simpl.
  - now rewrite String.eqb_refl.
  - destruct (String.eqb k0 k) eqn:E; simpl; rewrite E; [reflexivity | now rewrite IH].
Qed.

Lemma dict_set_same (d : dict) (k : string) (v : value) :
  dict_get d k = Some v -> dict_set d k v = d.
Proof.
  induction d as [|[k0 v0] d IH]; simpl; [discriminate|].
  destruct (String.eqb k0 k) eqn:E.
  - intro H. injection H as ->. reflexivity.
  - intro H. now rewrite (IH H).
Qed.

Lemma dict_has_get (d : dict) (k : string) :
  dict_has d k = true <-> exists v, dict_get d k = Some v.
Proof.
  unfold dict_has. destruct (dict_get d k) as [v|].
  - split; [now exists v | reflexivity].
  - split; [discriminate | now intros [v H]].
Qed.

Lemma default_start_has (prm : dict) : dict_has (default_start prm) "start" = true.
Proof.
  unfold default_start. destruct (dict_has prm "start") eqn:E; simpl; [exact E|].
  unfold dict_has. now rewrite dict_get_set_same.
Qed.

Lemma default_start_set (prm : dict) (v : value) :
  default_start (dict_set prm "start" v) = dict_set prm "start" v.
Proof.
  unfold default_start, dict_has. now rewrite dict_get_set_same.
Qed.

Lemma default_start_set_set (prm : dict) (v v' : value) :
  dict_set (default_start (dict_set (default_start prm) "start" v)) "start" v'
  = dict_set (default_start prm) "start" v'.
Proof. now rewrite default_start_set, dict_set_set. Qed.

(** ** Offset iteration *)

Lemma call_method_json (fuel : nat) (self : Bitrix24) (method : string) (prm : dict)
  (e : dict) (rest : list reply) (tr : list event) :
  dict_has e "error" = false ->
  _call_method (S fuel) self method prm (mkWorld (Json (VDict e) :: rest) tr)
  = Some (Ok (VDict e), mkWorld rest (tr ++ [Sent (build_request self method prm)])%list).
Proof.
  intro He. rewrite call_method_step. unfold next_reply, after_request. simpl.
  now rewrite He.
Qed.

Lemma well_formed_page_parts (e : dict) :
  well_formed_page e = true ->
  dict_has e "error" = false
  /\ dict_get e "result" = Some (page_result e)
  /\ (dict_has e "next" = true -> exists t, dict_get e "total" = Some (VInt t)).
Proof.
  unfold well_formed_page, page_result. intro H.
  apply andb_prop in H. destruct H as [H Hnext].
  apply andb_prop in H. destruct H as [Herr Hres].
  split; [now destruct (dict_has e "error")|]. split.
  - apply dict_has_get in Hres. destruct Hres as [v ->]. reflexivity.
  - intro Hn. rewrite Hn in Hnext.
    destruct (dict_get e "total") as [[| | t | | | |]|]; try discriminate. now exists t.
Qed.

Lemma has_more_page (e prm : dict) (start : Z) :
  well_formed_page e = true ->
  dict_get prm "start" = Some (VInt start) ->
  has_more (VDict e) prm = Ok (page_has_more e start).
Proof.
  intros Hwf Hstart. destruct (well_formed_page_parts e Hwf) as (_ & _ & Htotal).
  unfold has_more, page_has_more. simpl.
  destruct (dict_has e "next"); [|reflexivity].
  destruct (Htotal eq_refl) as [t Ht]. rewrite Ht, Hstart. reflexivity.
Qed.

Lemma yield_result_page (ys : list value) (e : dict) :
  well_formed_page e = true ->
  yield_result ys (VDict e) = ((ys ++ [page_result e])%list, None).
Proof.
  intro Hwf. destruct (well_formed_page_parts e Hwf) as (_ & Hres & _).
  unfold yield_result. simpl. now rewrite Hres.
Qed.

Lemma window_requests_shift (self : Bitrix24) (method : string) (prm : dict) (s0 : Z)
  (n : nat) :
  map (fun i => window_request self method
                  (dict_set (default_start prm) "start" (VInt (s0 + 50))) 
                  (s0 + 50 + 50 * Z.of_nat i)) (seq 0 n)
  = map (fun i => window_request self method prm (s0 + 50 * Z.of_nat i)) (seq 1 n).
Proof.
  rewrite <- seq_shift, map_map. apply map_ext. intro i.
  unfold window_request. rewrite default_start_set_set.
  replace (s0 + 50 + 50 * Z.of_nat i)%Z with (s0 + 50 * Z.of_nat (S i))%Z by lia.
  reflexivity.
Qed.

Lemma window_request_first (self : Bitrix24) (method : string) (prm : dict) (s0 z : Z) :
  dict_get (default_start prm) "start" = Some (VInt s0) ->
  z = s0 ->
  window_request self method prm z = Sent (build_request self method (default_start prm)).
Proof.
  intros Hstart ->. unfold window_request.
  now rewrite (dict_set_same _ _ _ Hstart).
Qed.

Lemma callMethodIter_unfold (fuel : nat) (self : Bitrix24) (method : string) (prm : dict)
  (w : world) :
  callMethodIter (S fuel) self method prm w
  = match _call_method (S fuel) self method (default_start prm) w with
    | None => None
    | Some (Raise e, w1) => Some (([], Some e), w1)
    | Some (Ok r, w1) =>
        match has_more r (default_start prm) with
        | Raise e => Some (([], Some e), w1)
        | Ok true =>
            match bind_result (py_getitem (VDict (default_start prm)) "start")
                    (fun s => py_iadd s 50) with
            | Raise e => Some (([], Some e), w1)
            | Ok start' =>
                match callMethodIter fuel self method
                        (dict_set (default_start prm) "start" start') w1 with
                | None => None
                | Some ((ys, Some e), w2) => Some ((ys, Some e), w2)
                | Some ((ys, None), w2) => Some (yield_result ys r, w2)
                end
            end
        | Ok false => Some (yield_result [] r, w1)
        end
    end.
Proof. reflexivity. Qed.

(** C5: the offset iteration over a run of pages.  Each page before the
    last has a [next] field and a [total] above the start of its window, the
    last one has not; then one request is sent per page, the windows
    starting 50 apart, nothing is read past the last page, and the payloads
    are yielded deepest page first, the first page's payload last. *)
Theorem callMethodIter_pages
  (fuel : nat) (self : Bitrix24) (method : string) (prm : dict) (s0 : Z)
  (pages : list dict) (last_page : dict) (rest : list reply) (tr : list event) :
  dict_get (default_start prm) "start" = Some (VInt s0) ->
  Forall (fun e => well_formed_page e = true) (pages ++ [last_page])%list ->
  (forall i e, nth_error pages i = Some e ->
               page_has_more e (s0 + 50 * Z.of_nat i) = true) ->
  page_has_more last_page (s0 + 50 * Z.of_nat (List.length pages)) = false ->
  List.length pages < fuel ->
  callMethodIter fuel self method prm
    (mkWorld (map (fun e => Json (VDict e)) (pages ++ [last_page]) ++ rest)%list tr)
  = Some ((rev (map page_result (pages ++ [last_page])%list), None),
          mkWorld rest
            (tr ++ map (fun i => window_request self method prm (s0 + 50 * Z.of_nat i))
                       (seq 0 (S (List.length pages))))%list).
Proof.
  revert fuel prm s0 tr.
  induction pages as [|e pages IH]; intros fuel prm s0 tr Hstart Hwf Hmore Hlast Hfuel.
  - destruct fuel as [|fuel]; [inversion Hfuel|].
    apply Forall_inv in Hwf.
    destruct (well_formed_page_parts last_page Hwf) as (Herr & _ & _).
    rewrite callMethodIter_unfold. simpl app. simpl map at 1.
    rewrite (call_method_json fuel self method _ last_page _ _ Herr).
    rewrite (has_more_page last_page _ s0 Hwf Hstart).
    replace (s0 + 50 * Z.of_nat (List.length (@nil dict)))%Z with s0 in Hlast
      by (simpl; lia).
    rewrite Hlast, (yield_result_page [] last_page Hwf).
    change (seq 0 (S (List.length (@nil dict)))) with [0].
    cbn [map]. now rewrite (window_request_first self method prm s0 _ Hstart) by lia.
  - destruct fuel as [|fuel]; [inversion Hfuel|].
    simpl in Hfuel. apply PeanoNat.lt_S_n in Hfuel.
    pose proof (Forall_inv Hwf) as Hwf_e. simpl in Hwf_e.
    pose proof (Forall_inv_tail Hwf) as Hwf_rest.
    destruct (well_formed_page_parts e Hwf_e) as (Herr & _ & _).
    rewrite callMethodIter_unfold.
    change (map (fun e0 => Json (VDict e0)) ((e :: pages) ++ [last_page]) ++ rest)%list
      with (Json (VDict e)
              :: (map (fun e0 => Json (VDict e0)) (pages ++ [last_page]) ++ rest))%list.
    rewrite (call_method_json fuel self method _ e _ _ Herr).
    rewrite (has_more_page e _ s0 Hwf_e Hstart).
    pose proof (Hmore 0 e eq_refl) as Hmore_e.
    replace (s0 + 50 * Z.of_nat 0)%Z with s0 in Hmore_e by (simpl; lia).
    rewrite Hmore_e.
    replace (bind_result (py_getitem (VDict (default_start prm)) "start")
               (fun s => py_iadd s 50))
      with (@Ok value (VInt (s0 + 50)))
      by (simpl; now rewrite Hstart).
    rewrite (IH fuel (dict_set (default_start prm) "start" (VInt (s0 + 50)))
               (s0 + 50)%Z).
    + rewrite (yield_result_page _ e Hwf_e). f_equal. f_equal.
      rewrite window_requests_shift, <- app_assoc. f_equal.
      change (seq 0 (S (List.length (e :: pages))))
        with (0 :: seq 1 (S (List.length pages))).
      cbn [map]. now rewrite (window_request_first self method prm s0 _ Hstart) by lia.
    + rewrite default_start_set. apply dict_get_set_same.
    + exact Hwf_rest.
    + intros i e' Hi.
      replace (s0 + 50 + 50 * Z.of_nat i)%Z with (s0 + 50 * Z.of_nat (S i))%Z by lia.
      apply (Hmore (S i) e'). exact Hi.
    + replace (s0 + 50 + 50 * Z.of_nat (List.length pages))%Z
        with (s0 + 50 * Z.of_nat (List.length (e :: pages)))%Z by (simpl List.length; lia).
      exact Hlast.
    + exact Hfuel.
Qed.

(** Three pages of a total of 120 rows, windows at 0, 50 and 100. *)
Lemma callMethodIter_pages_witness :
  let bx := mkBitrix24 "https://example.bitrix24.com/rest/1/code" (VInt 60) in
  let page1 := [("result", VList [VInt 1]); ("next", VInt 50); ("total", VInt 120)] in
  let page2 := [("result", VList [VInt 2]); ("next", VInt 100); ("total", VInt 120)] in
  let page3 := [("result", VList [VInt 3]); ("total", VInt 120)] in
  callMethodIter 3 bx "crm.deal.list" []
    (mkWorld (map (fun e => Json (VDict e)) ([page1; page2] ++ [page3]) ++ [NotJson])%list [])
  = Some ((rev (map page_result ([page1; page2] ++ [page3])%list), None),
          mkWorld [NotJson]
            ([] ++ map (fun i => window_request bx "crm.deal.list" [] (0 + 50 * Z.of_nat i))
                       (seq 0 3))%list).
Proof.
  intros bx page1 page2 page3.
  apply (callMethodIter_pages 3 bx "crm.deal.list" [] 0 [page1; page2] page3 [NotJson] []).
  - reflexivity.
  - repeat constructor.
  - intros i e Hi. destruct i as [|[|i]]; simpl in Hi.
    + injection Hi as <-. reflexivity.
    + injection Hi as <-. reflexivity.
    + destruct i; discriminate.
  - reflexivity.
  - simpl. lia.
Defined.

(** ** Aggregation *)

Lemma dict_update_lookup (other d : dict) (k : string) :
  unique_keys other = true ->
  dict_get (dict_update d other) k
  = match dict_get other k with
    | Some v => Some v
    | None => dict_get d k
    end.
Proof.
  unfold dict_update. revert d.
  induction other as [|[k1 v1] other IH]; intros d Huniq; [reflexivity|].
  simpl in Huniq. apply andb_prop in Huniq. destruct Huniq as [Hfresh Huniq].
  simpl. rewrite (IH _ Huniq).
  destruct (String.eqb_spec k1 k) as [-> | Hne].
  - unfold dict_has in Hfresh.
    destruct (dict_get other k); [discriminate|]. apply dict_get_set_same.
  - destruct (dict_get other k); [reflexivity|]. now apply dict_get_set_other.
Qed.

(** The three locals after the loop over the yielded pages. *)
Lemma merge_pages_fold (ys : list value) (st : merge_state) :
  Forall (fun y => page_keys_unique y = true) ys ->
  let st' := fold_left merge_page ys st in
  (forall k,
     dict_get (result_dict st') k
     = fold_left
         (fun found y =>
            match y with
            | VDict d => match dict_get d k with Some v => Some v | None => found end
            | _ => found
            end)
         ys (dict_get (result_dict st) k))
  /\ result_list st' = (result_list st ++ list_pages ys)%list
  /\ last_r st' = match ys with [] => last_r st | _ => Some (last ys VNone) end.
Proof.
  revert st. induction ys as [|y ys IH]; intros st Huniq.
  - simpl. rewrite app_nil_r. auto.
  - pose proof (Forall_inv Huniq) as Hy. pose proof (Forall_inv_tail Huniq) as Hys.
    destruct (IH (merge_page st y) Hys) as (Hd & Hl & Hr).
    cbn zeta in *. change (fold_left merge_page (y :: ys) st)
      with (fold_left merge_page ys (merge_page st y)).
    split; [|split].
    + intro k. rewrite Hd. simpl fold_left. f_equal.
      destruct y as [| b | z | s | l | l | d]; try reflexivity.
      simpl. now apply dict_update_lookup.
    + rewrite Hl. destruct y as [| b | z | s | l | l | d]; simpl;
        rewrite ?app_nil_r, <- ?app_assoc; reflexivity.
    + rewrite Hr. destruct ys as [|y' ys]; [|reflexivity].
      now destruct y.
Qed.




Lemma merge_return_cases (d : dict) (l : list value) (r : value) :
  merge_return (mkMerge d l (Some r))
  = Ok (if truthy (VDict d) then VDict d
        else if truthy (VList l) then VList l
        else r).
Proof.
  unfold merge_return, py_or. simpl result_dict. simpl result_list. simpl last_r.
  destruct (truthy (VDict d)) eqn:Ed; [now rewrite Ed|].
  now destruct (truthy (VList l)) eqn:El; rewrite ?El.
Qed.



(** ** Cursor bulk fetch *)

Lemma callMethodList_loop_unfold (fuel : nat) (self : Bitrix24) (method : string)
  (key : option string) (prm : dict) (id : value) (acc : list value) (w : world) :
  callMethodList_loop (S fuel) self method key prm id acc w
  = match dict_get prm "filter" with
    | None => Some (Raise (KeyError (VStr "filter")), w)
    | Some (VDict flt) =>
        match _call_method (S fuel) self method
                (dict_set prm "filter" (VDict (dict_update flt [(">ID", id)]))) w with
        | None => None
        | Some (Raise e, w1) => Some (Raise e, w1)
        | Some (Ok envelope, w1) =>
            match py_getitem envelope "result" with
            | Raise e => Some (Raise e, w1)
            | Ok r =>
                if truthy (if isinstance_dict r then select_rows key r else r) then
                  match (if isinstance_dict r then select_rows key r else r) with
                  | VList rows | VTuple rows =>
                      match py_getitem (last rows VNone) "id" with
                      | Ok id' =>
                          callMethodList_loop fuel self method key
                            (dict_set prm "filter" (VDict (dict_update flt [(">ID", id)])))
                            id' (acc ++ rows)%list w1
                      | Raise e => Some (Raise e, w1)
                      end
                  | VStr _ => Some (Raise TypeError, w1)
                  | VDict _ => Some (Raise (KeyError (VInt (-1))), w1)
                  | _ => Some (Raise TypeError, w1)
                  end
                else Some (Ok (VList acc), w1)
            end
        end
    | Some _ => Some (Raise AttributeError, w)
    end.
Proof. reflexivity. Qed.

Lemma selected_rows_result (key : option string) (e : dict) (r : value) :
  selected_rows key e = Some r ->
  exists r0, py_getitem (VDict e) "result" = Ok r0
             /\ (if isinstance_dict r0 then select_rows key r0 else r0) = r.
Proof.
  unfold selected_rows. simpl. destruct (dict_get e "result") as [r0|]; [|discriminate].
  intro H. injection H as <-. now exists r0.
Qed.

(** The loop, from any iteration on: [cur] is the parameter mapping at
    that point, equal to [P0] but for its filter, which is [f0] but for its
    [>ID] clause. *)
Lemma callMethodList_loop_pages
  (self : Bitrix24) (method : string) (key : option string) (P0 f0 : dict)
  (last_page : dict) (rest : list reply) (pages : list cursor_page) :
  Forall (cursor_page_ok key) pages ->
  dict_has last_page "error" = false ->
  page_is_empty key last_page = true ->
  forall (fuel : nat) (cur flt : dict) (id : value) (acc : list value) (tr : list event),
    (forall X, dict_set cur "filter" X = dict_set P0 "filter" X) ->
    dict_get cur "filter" = Some (VDict flt) ->
    (forall c, dict_set flt ">ID" c = dict_set f0 ">ID" c) ->
    List.length pages < fuel ->
    callMethodList_loop fuel self method key cur id acc
      (mkWorld (map (fun p => Json (VDict (cp_envelope p))) pages
                ++ Json (VDict last_page) :: rest)%list tr)
    = Some (Ok (VList (acc ++ List.concat (map cp_rows pages))%list),
            mkWorld rest
              (tr ++ map (fun c => Sent (build_request self method
                                           (dict_set P0 "filter"
                                              (VDict (dict_set f0 ">ID" c)))))
                         (id :: map cp_cursor pages))%list).
Proof.
  intros Hpages Herr_last Hempty.
  induction Hpages as [|p pages Hp _ IH];
    intros fuel cur flt id acc tr Hcur Hflt Hid Hfuel;
    (destruct fuel as [|fuel]; [inversion Hfuel|]);
    rewrite callMethodList_loop_unfold, Hflt;
    change (dict_update flt [(">ID", id)]) with (dict_set flt ">ID" id);
    rewrite Hcur, Hid.
  - simpl map. simpl app.
    rewrite (call_method_json fuel self method _ last_page _ _ Herr_last).
    unfold page_is_empty in Hempty.
    destruct (selected_rows key last_page) as [r|] eqn:Hsel; [|discriminate].
    destruct (selected_rows_result key last_page r Hsel) as (r0 & -> & ->).
    apply negb_true_iff in Hempty. rewrite Hempty.
    now rewrite app_nil_r.
  - destruct Hp as (Herr & Hsel & Hrows & Hcursor).
    change (map (fun p0 => Json (VDict (cp_envelope p0))) (p :: pages)
            ++ Json (VDict last_page) :: rest)%list
      with (Json (VDict (cp_envelope p))
              :: (map (fun p0 => Json (VDict (cp_envelope p0))) pages
                  ++ Json (VDict last_page) :: rest))%list.
    rewrite (call_method_json fuel self method _ (cp_envelope p) _ _ Herr).
    destruct (selected_rows_result key _ _ Hsel) as (r0 & -> & ->).
    replace (truthy (VList (cp_rows p))) with true
      by (unfold truthy; now destruct (cp_rows p)).
    rewrite Hcursor.
    rewrite (IH fuel _ (dict_set f0 ">ID" id)).
    + simpl map. simpl List.concat. rewrite <- !app_assoc. reflexivity.
    + intro X. apply dict_set_set.
    + apply dict_get_set_same.
    + intro c. apply dict_set_set.
    + simpl in Hfuel. lia.
Qed.

(** C7: the cursor fetch over a run of non-empty pages followed by an
    empty one.  One request is sent per page and nothing is read past the
    empty page; the request of each call carries [start] at -1, [order]
    ascending by [ID] and the filter clause [>ID] set to the cursor, which
    is the initial [id] first and then the [id] field of the last row of
    the page before; the result is all the rows, in order. *)
Theorem callMethodList_cursor
  (fuel : nat) (self : Bitrix24) (method : string) (id0 : value) (key : option string)
  (prm : dict) (pages : list cursor_page) (last_page : dict) (rest : list reply)
  (tr : list event) :
  filter_is_mapping prm = true ->
  Forall (cursor_page_ok key) pages ->
  dict_has last_page "error" = false ->
  page_is_empty key last_page = true ->
  List.length pages < fuel ->
  callMethodList fuel self method id0 key prm
    (mkWorld (map (fun p => Json (VDict (cp_envelope p))) pages
              ++ Json (VDict last_page) :: rest)%list tr)
  = Some (Ok (VList (List.concat (map cp_rows pages))),
          mkWorld rest
            (tr ++ map (fun c => Sent (build_request self method (cursor_params prm c)))
                       (id0 :: map cp_cursor pages))%list)
  /\ (forall c,
        dict_get (cursor_params prm c) "start" = Some (VInt (-1))
        /\ dict_get (cursor_params prm c) "order" = Some (VDict [("ID", VStr "asc")])
        /\ exists flt, dict_get (cursor_params prm c) "filter" = Some (VDict flt)
                       /\ dict_get flt ">ID" = Some c).
Proof.
  intros Hfilter Hpages Herr Hempty Hfuel.
  set (P1 := dict_set (dict_set prm "start" (VInt (-1))) "order"
               (VDict [("ID", VStr "asc")])).
  set (f0 := match dict_get P1 "filter" with Some (VDict f) => f | _ => [] end).
  assert (HP1 : dict_get P1 "filter" = dict_get prm "filter").
  { unfold P1. rewrite !dict_get_set_other by discriminate. reflexivity. }
  split.
  - unfold callMethodList. fold P1.
    rewrite (callMethodList_loop_pages self method key P1 f0 last_page rest pages
               Hpages Herr Hempty fuel _ f0); try assumption.
    + reflexivity.
    + intro X. destruct (dict_has P1 "filter"); simpl; [reflexivity | apply dict_set_set].
    + unfold f0, dict_has. unfold filter_is_mapping in Hfilter. rewrite HP1.
      destruct (dict_get prm "filter") as [[| | | | | |f]|] eqn:E; try discriminate; simpl.
      * exact HP1.
      * apply dict_get_set_same.
    + reflexivity.
  - intro c. unfold cursor_params. fold P1. fold f0. split; [|split].
    + unfold P1. rewrite !dict_get_set_other by discriminate. apply dict_get_set_same.
    + unfold P1. rewrite dict_get_set_other by discriminate. apply dict_get_set_same.
    + exists (dict_set f0 ">ID" c). split; apply dict_get_set_same.
Qed.

(** The pages [[{id:1},{id:2}]], [[{id:3}]] and [[]]: the filter clause
    is 0, then 2, then 3, and the three rows come back. *)
Lemma callMethodList_cursor_witness :
  let bx := mkBitrix24 "https://example.bitrix24.com/rest/1/code" (VInt 60) in
  let row (n : value) := VDict [("id", n)] in
  let page1 := mkCursorPage [("result", VList [row (VInt 1); row (VInt 2)])]
                 [row (VInt 1); row (VInt 2)] (VInt 2) in
  let page2 := mkCursorPage [("result", VList [row (VInt 3)])] [row (VInt 3)] (VInt 3) in
  let url := "https://example.bitrix24.com/rest/1/code/crm.deal.list.json" in
  callMethodList 3 bx "crm.deal.list" (VInt 0) None []
    (mkWorld [Json (VDict (cp_envelope page1)); Json (VDict (cp_envelope page2));
              Json (VDict [("result", VList [])]); NotJson] [])
  = Some (Ok (VList [row (VInt 1); row (VInt 2); row (VInt 3)]),
          mkWorld [NotJson]
            [Sent (mkRequest GET url "start=-1&order[ID]=asc&filter[>ID]=0&" (VInt 60));
             Sent (mkRequest GET url "start=-1&order[ID]=asc&filter[>ID]=2&" (VInt 60));
             Sent (mkRequest GET url "start=-1&order[ID]=asc&filter[>ID]=3&" (VInt 60))]).
Proof.
  intros bx row page1 page2 url.
  refine (proj1 (callMethodList_cursor 3 bx "crm.deal.list" (VInt 0) None []
                   [page1; page2] [("result", VList [])] [NotJson] [] _ _ _ _ _)).
  - reflexivity.
  - repeat constructor; discriminate.
  - reflexivity.
  - reflexivity.
  - simpl. lia.
Defined.

(** * Further properties of the client *)

(** ** The parameter encoder, further *)

(** X1: the encoding of a mapping is the concatenation, in the order of the
    keys, of the encodings of its items taken one by one: what a key
    contributes does not depend on the other keys. *)
Theorem prepare_params_itemwise (d : dict) (prev : string) :
  _prepare_params (VDict d) prev
  = concat_all (map (fun kv => _prepare_params (VDict [kv]) prev) d).
Proof.
  induction d as [|kv d IH]; [reflexivity|].
  rewrite prepare_params_cons, IH. reflexivity.
Qed.

Lemma pair_piece_intro (name text : string) :
  is_pair_piece (name ++ "=" ++ text ++ "&").
Proof. now exists name, text. Qed.

Lemma pair_piece_nested (a b c text : string) :
  is_pair_piece (a ++ "[" ++ b ++ "][" ++ c ++ "]=" ++ text ++ "&").
Proof.
  exists (a ++ "[" ++ b ++ "][" ++ c ++ "]"), text.
  rewrite !append_assoc. reflexivity.
Qed.

Lemma pair_piece_bracket (a b text : string) :
  is_pair_piece (a ++ "[" ++ b ++ "]=" ++ text ++ "&").
Proof.
  exists (a ++ "[" ++ b ++ "]"), text.
  rewrite !append_assoc. reflexivity.
Qed.

Lemma emitted_elems_pairs (prev key : string) (l : list value) :
  Forall (fun v => forall p, Forall is_pair_piece (emitted v p)) l ->
  forall offset, Forall is_pair_piece (emitted_elems prev key offset l).
Proof.
  induction 1 as [|v l Hv _ IH]; intro offset; [constructor|].
  simpl. apply Forall_app. split; [|apply IH].
  destruct (isinstance_dict v); [apply Hv|].
  destruct (truthy (VStr prev)); constructor; try constructor.
  - apply pair_piece_nested.
  - apply pair_piece_bracket.
Qed.

Lemma emitted_pairs (v : value) :
  forall prev, Forall is_pair_piece (emitted v prev).
Proof.
  revert v.
  apply (deeply_intro (fun v => forall prev, Forall is_pair_piece (emitted v prev))).
  - intros v Hv prev. destruct v; try constructor. now simpl in Hv.
  - intros d Hd prev.
    induction Hd as [|[key val] rest [Hval Hsub] _ IH]; [constructor|].
    rewrite emitted_cons. apply Forall_app. split; [|exact IH].
    simpl in Hval, Hsub.
    assert (Hscalar : Forall is_pair_piece
                        (if truthy (VStr prev)
                         then [prev ++ "[" ++ key ++ "]=" ++ py_str val ++ "&"]
                         else [key ++ "=" ++ py_str val ++ "&"])).
    { destruct (truthy (VStr prev)); constructor; try constructor.
      - apply pair_piece_bracket.
      - apply pair_piece_intro. }
    destruct val as [| b | z | s | l | l | e];
      try (simpl; rewrite app_nil_r; exact Hscalar).
    + destruct l as [|x l]; [simpl; rewrite app_nil_r; exact Hscalar|].
      rewrite (proj1 (emitted_seq key x l prev)). now apply emitted_elems_pairs.
    + destruct l as [|x l]; [simpl; rewrite app_nil_r; exact Hscalar|].
      rewrite (proj2 (emitted_seq key x l prev)). now apply emitted_elems_pairs.
    + simpl. rewrite app_nil_r. apply Hval.
Qed.

Lemma concat_pairs_end (ps : list string) :
  Forall is_pair_piece ps ->
  concat_all ps = "" \/ exists s, concat_all ps = s ++ "&".
Proof.
  induction 1 as [|p ps (name & text & ->) _ IH]; [now left|].
  right. cbn [concat_all]. destruct IH as [-> | [s ->]].
  - exists (name ++ "=" ++ text). rewrite append_nil_r, !append_assoc. reflexivity.
  - exists ((name ++ "=" ++ text ++ "&") ++ s). symmetry. apply append_assoc.
Qed.

(** X2: whatever the parameters and the prefix, the encoder emits a run of
    pieces of the form name, equals sign, text, ampersand; so its output is
    empty or ends with an ampersand. *)
Theorem prepare_params_wire_shape (v : value) (prev : string) :
  Forall is_pair_piece (emitted v prev)
  /\ concat_all (emitted v prev) = _prepare_params v prev
  /\ (_prepare_params v prev = "" \/ exists s, _prepare_params v prev = s ++ "&").
Proof.
  split; [apply emitted_pairs|]. split; [apply emitted_concat|].
  rewrite <- emitted_concat. apply concat_pairs_end, emitted_pairs.
Qed.

(** X3: a key bound to an empty mapping contributes nothing: the key is
    dropped from the wire parameters, at the top level and below a
    prefix. *)
Theorem prepare_params_empty_mapping_dropped (d1 d2 : dict) (key prev : string) :
  _prepare_params (VDict (d1 ++ (key, VDict []) :: d2)%list) prev
  = _prepare_params (VDict (d1 ++ d2)%list) prev.
Proof.
  rewrite !prepare_params_app, prepare_params_cons. reflexivity.
Qed.

Lemma encode_elems_scalars (prev key : string) (l : list value) :
  forallb (fun v => negb (isinstance_dict v)) l = true ->
  forall offset,
    encode_elems prev key offset l
    = concat_all (indexed_pairs
                    (if truthy (VStr prev) then prev ++ "[" ++ key ++ "]" else key)
                    offset l).
Proof.
  induction l as [|v l IH]; intros Hl offset; [reflexivity|].
  simpl in Hl. apply andb_prop in Hl. destruct Hl as [Hv Hl].
  apply negb_true_iff in Hv.
  unfold indexed_pairs. simpl. rewrite Hv. fold (indexed_pairs
    (if truthy (VStr prev) then prev ++ "[" ++ key ++ "]" else key) (S offset) l).
  rewrite (IH Hl). f_equal.
  destruct (truthy (VStr prev)); [|reflexivity].
  repeat (rewrite append_assoc; cbn [append]). reflexivity.
Qed.

(** X4: a key bound to a non-empty list or tuple of values that are not
    mappings is encoded element by element as [name[i]=text&], the indices
    counted from 0, where the name is the key at the top level and
    [prev[key]] below a prefix; a list and a tuple of the same elements
    encode alike. *)
Theorem prepare_params_sequence_of_scalars
  (key prev : string) (x : value) (l : list value) :
  forallb (fun v => negb (isinstance_dict v)) (x :: l) = true ->
  let name := if truthy (VStr prev) then prev ++ "[" ++ key ++ "]" else key in
  _prepare_params (VDict [(key, VList (x :: l))]) prev
  = concat_all (indexed_pairs name 0 (x :: l))
  /\ _prepare_params (VDict [(key, VTuple (x :: l))]) prev
     = concat_all (indexed_pairs name 0 (x :: l)).
Proof.
  intros Hl name.
  rewrite (proj1 (prepare_params_seq key x l prev)),
          (proj2 (prepare_params_seq key x l prev)).
  split; now apply encode_elems_scalars.
Qed.

(** The list [[7, "a", None]] under the key [ids]. *)
Lemma prepare_params_sequence_of_scalars_witness :
  _prepare_params (VDict [("ids", VList [VInt 7; VStr "a"; VNone])]) ""
  = "ids[0]=7&ids[1]=a&ids[2]=None&"
  /\ _prepare_params (VDict [("ids", VTuple [VInt 7; VStr "a"; VNone])]) ""
     = "ids[0]=7&ids[1]=a&ids[2]=None&".
Proof.
  apply (prepare_params_sequence_of_scalars "ids" "" (VInt 7) [VStr "a"; VNone]).
  reflexivity.
Defined.

(** X5: text values are put on the wire as they are, with no escaping: a
    text holding an ampersand and an equals sign encodes exactly like two
    separate parameters. *)
Theorem prepare_params_no_escaping (k1 s1 k2 s2 : string) :
  _prepare_params (VDict [(k1, VStr (s1 ++ "&" ++ k2 ++ "=" ++ s2))]) ""
  = _prepare_params (VDict [(k1, VStr s1); (k2, VStr s2)]) "".
Proof.
  simpl. unfold py_str. rewrite !append_nil_r.
  repeat (rewrite append_assoc; cbn [append]). reflexivity.
Qed.

Lemma prepare_params_leaf (key prev : string) (leaf : value) :
  is_leaf leaf = true ->
  _prepare_params (VDict [(key, leaf)]) prev
  = (if truthy (VStr prev) then prev ++ "[" ++ key ++ "]" else key)
    ++ "=" ++ py_str leaf ++ "&".
Proof.
  intro Hleaf.
  destruct leaf as [| b | z | s | [|x l] | [|x l] | e]; try discriminate;
    simpl; rewrite append_nil_r;
    destruct (truthy (VStr prev)); try reflexivity;
    repeat (rewrite append_assoc; cbn [append]); reflexivity.
Qed.

Lemma prepare_params_nest_below (keys : list string) (leaf : value) :
  is_leaf leaf = true ->
  forall key prev,
    prev <> "" ->
    _prepare_params (VDict [(key, nest keys leaf)]) prev
    = prev ++ "[" ++ key ++ "]" ++ brackets keys ++ "=" ++ py_str leaf ++ "&".
Proof.
  intro Hleaf. induction keys as [|k keys IH]; intros key prev Hprev.
  - simpl nest. rewrite (prepare_params_leaf key prev leaf Hleaf), (truthy_str prev Hprev).
    unfold brackets. simpl. repeat (rewrite append_assoc; cbn [append]). reflexivity.
  - change (_prepare_params (VDict [(key, nest (k :: keys) leaf)]) prev)
      with (_prepare_params (VDict [(k, nest keys leaf)])
              (if truthy (VStr prev) then prev ++ "[" ++ key ++ "]" else key) ++ "").
    rewrite append_nil_r, (truthy_str prev Hprev), IH.
    + unfold brackets. simpl. repeat (rewrite append_assoc; cbn [append]). reflexivity.
    + destruct prev; [contradiction | discriminate].
Qed.

(** X6: a scalar reached through a chain of nested mappings is encoded
    under the first key followed by the other keys in brackets, provided the
    first key is not the empty text. *)
Theorem prepare_params_nested_path (k1 : string) (keys : list string) (leaf : value) :
  k1 <> "" ->
  is_leaf leaf = true ->
  _prepare_params (nest (k1 :: keys) leaf) ""
  = k1 ++ brackets keys ++ "=" ++ py_str leaf ++ "&".
Proof.
  intros Hk Hleaf. destruct keys as [|k keys].
  - simpl nest. rewrite (prepare_params_leaf k1 "" leaf Hleaf). reflexivity.
  - change (_prepare_params (nest (k1 :: k :: keys) leaf) "")
      with (_prepare_params (VDict [(k, nest keys leaf)]) k1 ++ "").
    rewrite append_nil_r, (prepare_params_nest_below keys leaf Hleaf k k1 Hk).
    unfold brackets. simpl. repeat (rewrite append_assoc; cbn [append]). reflexivity.
Qed.

(** The filter of a cursor call: [filter[>ID]=7&], and one level deeper. *)
Lemma prepare_params_nested_path_witness :
  _prepare_params (nest ["filter"; ">ID"] (VInt 7)) "" = "filter[>ID]=7&"
  /\ _prepare_params (nest ["fields"; "PHONE"; "VALUE"] (VStr "555")) ""
     = "fields[PHONE][VALUE]=555&".
Proof.
  split.
  - apply (prepare_params_nested_path "filter" [">ID"] (VInt 7)); [discriminate | reflexivity].
  - apply (prepare_params_nested_path "fields" ["PHONE"; "VALUE"] (VStr "555"));
      [discriminate | reflexivity].
Defined.

(** ** The domain normaliser, further *)















(** ** The method invoker, further *)










(** ** Offset iteration, further *)

Lemma default_start_idem (prm : dict) : default_start (default_start prm) = default_start prm.
Proof.
  unfold default_start at 1. now rewrite default_start_has.
Qed.

Lemma callMethodIter_default (fuel : nat) (self : Bitrix24) (method : string) (prm : dict)
  (w : world) :
  callMethodIter fuel self method (default_start prm) w
  = callMethodIter fuel self method prm w.
Proof.
  destruct fuel as [|fuel]; [reflexivity|].
  now rewrite !callMethodIter_unfold, default_start_idem.
Qed.

(** The iteration through pages that all ask for more: it is the
    iteration from the window after them, followed, when that ends without
    an exception, by the payloads of the pages, last page first. *)
Lemma callMethodIter_descend (self : Bitrix24) (method : string) (pages : list dict) :
  forall (fuel : nat) (prm : dict) (s0 : Z) (tail : list reply) (tr : list event),
    dict_get (default_start prm) "start" = Some (VInt s0) ->
    Forall (fun e => well_formed_page e = true) pages ->
    (forall i e, nth_error pages i = Some e ->
                 page_has_more e (s0 + 50 * Z.of_nat i) = true) ->
    callMethodIter (List.length pages + fuel) self method prm
      (mkWorld (map (fun e => Json (VDict e)) pages ++ tail)%list tr)
    = match callMethodIter fuel self method
              (dict_set (default_start prm) "start"
                 (VInt (s0 + 50 * Z.of_nat (List.length pages))))
              (mkWorld tail
                 (tr ++ map (fun i => window_request self method prm (s0 + 50 * Z.of_nat i))
                            (seq 0 (List.length pages)))%list) with
      | None => None
      | Some ((ys, Some e), w2) => Some ((ys, Some e), w2)
      | Some ((ys, None), w2) => Some ((ys ++ rev (map page_result pages))%list, None, w2)
      end.
Proof.
  induction pages as [|e pages IH]; intros fuel prm s0 tail tr Hstart Hwf Hmore.
  - cbn [List.length Nat.add map app seq rev]. rewrite app_nil_r.
    replace (s0 + 50 * Z.of_nat 0)%Z with s0 by (simpl; lia).
    rewrite (dict_set_same _ _ _ Hstart), callMethodIter_default.
    destruct (callMethodIter fuel self method prm (mkWorld tail tr))
      as [[[ys [err|]] w2]|]; try reflexivity.
    now rewrite app_nil_r.
  - pose proof (Forall_inv Hwf) as Hwf_e. simpl in Hwf_e.
    pose proof (Forall_inv_tail Hwf) as Hwf_rest.
    destruct (well_formed_page_parts e Hwf_e) as (Herr & _ & _).
    change (List.length (e :: pages) + fuel) with (S (List.length pages + fuel)).
    rewrite callMethodIter_unfold.
    change (map (fun e0 => Json (VDict e0)) (e :: pages) ++ tail)%list
      with (Json (VDict e) :: (map (fun e0 => Json (VDict e0)) pages ++ tail))%list.
    rewrite (call_method_json _ self method _ e _ _ Herr).
    rewrite (has_more_page e _ s0 Hwf_e Hstart).
    pose proof (Hmore 0 e eq_refl) as Hmore_e.
    replace (s0 + 50 * Z.of_nat 0)%Z with s0 in Hmore_e by (simpl; lia).
    rewrite Hmore_e.
    replace (bind_result (py_getitem (VDict (default_start prm)) "start")
               (fun s => py_iadd s 50))
      with (@Ok value (VInt (s0 + 50)))
      by (simpl; now rewrite Hstart).
    rewrite (IH fuel (dict_set (default_start prm) "start" (VInt (s0 + 50))) (s0 + 50)%Z).
    + rewrite default_start_set_set, window_requests_shift.
      replace (s0 + 50 + 50 * Z.of_nat (List.length pages))%Z
        with (s0 + 50 * Z.of_nat (List.length (e :: pages)))%Z
        by (simpl List.length; lia).
      replace ((tr ++ [Sent (build_request self method (default_start prm))]) ++
               map (fun i => window_request self method prm (s0 + 50 * Z.of_nat i))
                   (seq 1 (List.length pages)))%list
        with (tr ++ map (fun i => window_request self method prm (s0 + 50 * Z.of_nat i))
                        (seq 0 (List.length (e :: pages))))%list.
      2:{ rewrite <- app_assoc. f_equal.
          change (seq 0 (List.length (e :: pages))) with (0 :: seq 1 (List.length pages)).
          cbn [map]. now rewrite (window_request_first self method prm s0 _ Hstart) by lia. }
      destruct (callMethodIter fuel self method _ _) as [[[ys [err|]] w2]|]; try reflexivity.
      rewrite (yield_result_page _ e Hwf_e). cbn [map rev].
      now rewrite app_assoc.
    + rewrite default_start_set. apply dict_get_set_same.
    + exact Hwf_rest.
    + intros i e' Hi.
      replace (s0 + 50 + 50 * Z.of_nat i)%Z with (s0 + 50 * Z.of_nat (S i))%Z by lia.
      apply (Hmore (S i) e'). exact Hi.
Qed.

Lemma window_trace_snoc (self : Bitrix24) (method : string) (prm : dict) (s0 : Z)
  (tr : list event) (n : nat) :
  ((tr ++ map (fun i => window_request self method prm (s0 + 50 * Z.of_nat i)) (seq 0 n))
   ++ [Sent (build_request self method
               (default_start (dict_set (default_start prm) "start"
                                 (VInt (s0 + 50 * Z.of_nat n)))))])%list
  = (tr ++ map (fun i => window_request self method prm (s0 + 50 * Z.of_nat i))
               (seq 0 (S n)))%list.
Proof.
  rewrite seq_S, map_app, <- app_assoc, default_start_set. reflexivity.
Qed.

Lemma fuel_split (n fuel : nat) : n < fuel -> fuel = n + S (fuel - n - 1).
Proof. lia. Qed.



(** X15: a page that has a [next] field and no [total] field ends the
    iteration with a [KeyError] for [total]: nothing is yielded, not even
    the pages fetched before it. *)
Theorem callMethodIter_missing_total
  (fuel : nat) (self : Bitrix24) (method : string) (prm : dict) (s0 : Z)
  (pages : list dict) (bad : dict) (rest : list reply) (tr : list event) :
  dict_get (default_start prm) "start" = Some (VInt s0) ->
  Forall (fun p => well_formed_page p = true) pages ->
  (forall i p, nth_error pages i = Some p ->
               page_has_more p (s0 + 50 * Z.of_nat i) = true) ->
  dict_has bad "error" = false ->
  dict_has bad "next" = true ->
  dict_get bad "total" = None ->
  List.length pages < fuel ->
  callMethodIter fuel self method prm
    (mkWorld (map (fun p => Json (VDict p)) pages ++ Json (VDict bad) :: rest)%list tr)
  = Some (([], Some (KeyError (VStr "total"))),
          mkWorld rest
            (tr ++ map (fun i => window_request self method prm (s0 + 50 * Z.of_nat i))
                       (seq 0 (S (List.length pages))))%list).
Proof.
  intros Hstart Hwf Hmore Herr Hnext Htotal Hfuel.
  rewrite (fuel_split _ _ Hfuel).
  rewrite (callMethodIter_descend self method pages _ prm s0 _ tr Hstart Hwf Hmore).
  rewrite callMethodIter_unfold, (call_method_json _ self method _ bad _ _ Herr).
  unfold has_more. cbn [py_contains bind_result py_getitem]. rewrite Hnext, Htotal.
  cbn [bind_result]. now rewrite window_trace_snoc.
Qed.

(** A first page with [next] and no [total]. *)
Lemma callMethodIter_missing_total_witness :
  let bx := mkBitrix24 "https://example.bitrix24.com/rest/1/code" (VInt 60) in
  let bad := [("result", VList [VInt 1]); ("next", VInt 50)] in
  callMethodIter 1 bx "crm.deal.list" []
    (mkWorld (map (fun p => Json (VDict p)) [] ++ Json (VDict bad) :: [])%list [])
  = Some (([], Some (KeyError (VStr "total"))),
          mkWorld []
            ([] ++ map (fun i => window_request bx "crm.deal.list" [] (0 + 50 * Z.of_nat i))
                       (seq 0 1))%list).
Proof.
  intros bx bad.
  apply (callMethodIter_missing_total 1 bx "crm.deal.list" [] 0 [] bad [] []);
    try reflexivity.
  - constructor.
  - intros i p Hi. destruct i; discriminate.
  - simpl. lia.
Defined.

(** The iteration over a run of pages that ends with a page asking for no
    more, derived from the descent through the pages before it. *)
Lemma callMethodIter_run
  (fuel : nat) (self : Bitrix24) (method : string) (prm : dict) (s0 : Z)
  (pages : list dict) (last_page : dict) (rest : list reply) (tr : list event) :
  dict_get (default_start prm) "start" = Some (VInt s0) ->
  Forall (fun e => well_formed_page e = true) (pages ++ [last_page])%list ->
  (forall i e, nth_error pages i = Some e ->
               page_has_more e (s0 + 50 * Z.of_nat i) = true) ->
  page_has_more last_page (s0 + 50 * Z.of_nat (List.length pages)) = false ->
  List.length pages < fuel ->
  callMethodIter fuel self method prm
    (mkWorld (map (fun e => Json (VDict e)) (pages ++ [last_page]) ++ rest)%list tr)
  = Some ((rev (map page_result (pages ++ [last_page])%list), None),
          mkWorld rest
            (tr ++ map (fun i => window_request self method prm (s0 + 50 * Z.of_nat i))
                       (seq 0 (S (List.length pages))))%list).
Proof.
  intros Hstart Hwf Hmore Hlast Hfuel.
  apply Forall_app in Hwf. destruct Hwf as [Hwf Hwf_last].
  apply Forall_inv in Hwf_last.
  destruct (well_formed_page_parts last_page Hwf_last) as (Herr & _ & _).
  rewrite (fuel_split _ _ Hfuel), map_app, <- app_assoc.
  rewrite (callMethodIter_descend self method pages _ prm s0 _ tr Hstart Hwf Hmore).
  rewrite callMethodIter_unfold. cbn [map app].
  rewrite (call_method_json _ self method _ last_page _ _ Herr).
  rewrite (has_more_page last_page _ (s0 + 50 * Z.of_nat (List.length pages)) Hwf_last)
    by (rewrite default_start_set; apply dict_get_set_same).
  rewrite Hlast, (yield_result_page [] last_page Hwf_last), window_trace_snoc.
  rewrite map_app, rev_app_distr. reflexivity.
Qed.

(** X16: a page without a [result] field that asks for more does not stop
    the fetching: the pages after it are fetched and their payloads
    yielded, last page first, and only then the iteration ends with a
    [KeyError] for [result]. *)
Theorem callMethodIter_missing_result
  (fuel : nat) (self : Bitrix24) (method : string) (prm : dict) (s0 total : Z)
  (first : dict) (pages : list dict) (last_page : dict) (rest : list reply)
  (tr : list event) :
  dict_get (default_start prm) "start" = Some (VInt s0) ->
  dict_has first "error" = false ->
  dict_has first "next" = true ->
  dict_get first "total" = Some (VInt total) ->
  (s0 < total)%Z ->
  dict_get first "result" = None ->
  Forall (fun e => well_formed_page e = true) (pages ++ [last_page])%list ->
  (forall i e, nth_error pages i = Some e ->
               page_has_more e (s0 + 50 * Z.of_nat (S i)) = true) ->
  page_has_more last_page (s0 + 50 * Z.of_nat (S (List.length pages))) = false ->
  S (List.length pages) < fuel ->
  callMethodIter fuel self method prm
    (mkWorld (Json (VDict first)
                :: map (fun e => Json (VDict e)) (pages ++ [last_page]) ++ rest)%list tr)
  = Some ((rev (map page_result (pages ++ [last_page])%list),
           Some (KeyError (VStr "result"))),
          mkWorld rest
            (tr ++ map (fun i => window_request self method prm (s0 + 50 * Z.of_nat i))
                       (seq 0 (S (S (List.length pages)))))%list).
Proof.
  intros Hstart Herr Hnext Htotal Hlt Hres Hwf Hmore Hlast Hfuel.
  destruct fuel as [|fuel]; [inversion Hfuel|]. apply PeanoNat.lt_S_n in Hfuel.
  rewrite callMethodIter_unfold, (call_method_json _ self method _ first _ _ Herr).
  replace (has_more (VDict first) (default_start prm)) with (@Ok bool true).
  2:{ unfold has_more. cbn [py_contains bind_result py_getitem].
      rewrite Hnext, Htotal, Hstart. cbn [bind_result py_gt].
      f_equal. symmetry. apply Z.gtb_lt. exact Hlt. }
  replace (bind_result (py_getitem (VDict (default_start prm)) "start")
             (fun s => py_iadd s 50))
    with (@Ok value (VInt (s0 + 50)))
    by (simpl; now rewrite Hstart).
  rewrite (callMethodIter_run fuel self method _ (s0 + 50) pages last_page rest).
  - unfold yield_result. cbn [py_getitem]. rewrite Hres.
    rewrite window_requests_shift, <- app_assoc.
    change (seq 0 (S (S (List.length pages))))
      with (0 :: seq 1 (S (List.length pages))).
    cbn [map]. now rewrite (window_request_first self method prm s0 _ Hstart) by lia.
  - rewrite default_start_set. apply dict_get_set_same.
  - exact Hwf.
  - intros i e Hi.
    replace (s0 + 50 + 50 * Z.of_nat i)%Z with (s0 + 50 * Z.of_nat (S i))%Z by lia.
    now apply Hmore.
  - replace (s0 + 50 + 50 * Z.of_nat (List.length pages))%Z
      with (s0 + 50 * Z.of_nat (S (List.length pages)))%Z by lia.
    exact Hlast.
  - exact Hfuel.
Qed.

(** A first page without [result], then the last page. *)
Lemma callMethodIter_missing_result_witness :
  let bx := mkBitrix24 "https://example.bitrix24.com/rest/1/code" (VInt 60) in
  let first := [("next", VInt 50); ("total", VInt 70)] in
  let last_page := [("result", VList [VInt 2]); ("total", VInt 70)] in
  callMethodIter 2 bx "crm.deal.list" []
    (mkWorld (Json (VDict first)
                :: map (fun e => Json (VDict e)) ([] ++ [last_page]) ++ [])%list [])
  = Some ((rev (map page_result ([] ++ [last_page])%list),
           Some (KeyError (VStr "result"))),
          mkWorld []
            ([] ++ map (fun i => window_request bx "crm.deal.list" [] (0 + 50 * Z.of_nat i))
                       (seq 0 2))%list).
Proof.
  intros bx first last_page.
  apply (callMethodIter_missing_result 2 bx "crm.deal.list" [] 0 70 first [] last_page [] []);
    try reflexivity.
  - repeat constructor.
  - intros i e Hi. destruct i; discriminate.
  - simpl. lia.
Defined.

(** ** Aggregation, further *)

Lemma callMethod_of_iter (fuel : nat) (self : Bitrix24) (method : string) (prm : dict)
  (w w' : world) (ys : list value) :
  callMethodIter fuel self method prm w = Some ((ys, None), w') ->
  callMethod fuel self method prm w
  = Some (merge_return (fold_left merge_page ys (mkMerge [] [] None)), w').
Proof. intro H. unfold callMethod. now rewrite H. Qed.

Lemma merge_list_pages (rs : list (list value)) (st : merge_state) :
  fold_left merge_page (map VList rs) st
  = mkMerge (result_dict st) (result_list st ++ List.concat rs)%list
      (match rs with [] => last_r st | _ => Some (VList (last rs [])) end).
Proof.
  revert st. induction rs as [|r rs IH]; intro st.
  - simpl. rewrite app_nil_r. now destruct st.
  - cbn [map fold_left]. rewrite IH. cbn [merge_page result_dict result_list last_r].
    cbn [List.concat]. rewrite <- app_assoc. now destruct rs.
Qed.

Lemma concat_nil_last {A} (l : list (list A)) : List.concat l = [] -> last l [] = [].
Proof.
  induction l as [|x l IH]; [reflexivity|].
  cbn [List.concat]. intro H. apply app_eq_nil in H. destruct H as [-> Hl].
  destruct l as [|y l]; [reflexivity|]. now apply IH.
Qed.

(** X17: over a run of pages whose payloads are all lists, [callMethod]
    returns one list in which the rows of the last page come first and the
    rows of the first page last: the pages are concatenated in the reverse
    of the order they were fetched in. *)
Theorem callMethod_list_pages_reversed
  (fuel : nat) (self : Bitrix24) (method : string) (prm : dict) (s0 : Z)
  (pages : list dict) (last_page : dict) (rows : list (list value))
  (rest : list reply) (tr : list event) :
  dict_get (default_start prm) "start" = Some (VInt s0) ->
  Forall (fun e => well_formed_page e = true) (pages ++ [last_page])%list ->
  (forall i e, nth_error pages i = Some e ->
               page_has_more e (s0 + 50 * Z.of_nat i) = true) ->
  page_has_more last_page (s0 + 50 * Z.of_nat (List.length pages)) = false ->
  List.length pages < fuel ->
  map page_result (pages ++ [last_page])%list = map VList rows ->
  callMethod fuel self method prm
    (mkWorld (map (fun e => Json (VDict e)) (pages ++ [last_page]) ++ rest)%list tr)
  = Some (Ok (VList (List.concat (rev rows))),
          mkWorld rest
            (tr ++ map (fun i => window_request self method prm (s0 + 50 * Z.of_nat i))
                       (seq 0 (S (List.length pages))))%list).
Proof.
  intros Hstart Hwf Hmore Hlast Hfuel Hrows.
  rewrite (callMethod_of_iter _ _ _ _ _ _ _
             (callMethodIter_run fuel self method prm s0 pages last_page rest tr
                Hstart Hwf Hmore Hlast Hfuel)).
  f_equal. rewrite Hrows, <- map_rev, merge_list_pages.
  cbn [result_dict result_list last_r app].
  assert (Hne : rev rows <> []).
  { intro H. apply (f_equal (@List.length _)) in H. rewrite length_rev in H.
    apply (f_equal (@List.length _)) in Hrows.
    rewrite !length_map, length_app in Hrows. simpl in H, Hrows. lia. }
  destruct (rev rows) as [|r rs] eqn:E; [contradiction|]. rewrite <- E.
  rewrite merge_return_cases.
  replace (truthy (VDict [])) with false by reflexivity.
  destruct (List.concat (rev rows)) as [|x l] eqn:Ec.
  - replace (truthy (VList [])) with false by reflexivity.
    now rewrite (concat_nil_last _ Ec).
  - reflexivity.
Qed.

(** Three pages of one row each: the rows come back as 3, 2, 1. *)
Lemma callMethod_list_pages_reversed_witness :
  let bx := mkBitrix24 "https://example.bitrix24.com/rest/1/code" (VInt 60) in
  let page1 := [("result", VList [VInt 1]); ("next", VInt 50); ("total", VInt 120)] in
  let page2 := [("result", VList [VInt 2]); ("next", VInt 100); ("total", VInt 120)] in
  let page3 := [("result", VList [VInt 3]); ("total", VInt 120)] in
  callMethod 3 bx "crm.deal.list" []
    (mkWorld (map (fun e => Json (VDict e)) ([page1; page2] ++ [page3]) ++ [])%list [])
  = Some (Ok (VList (List.concat (rev [[VInt 1]; [VInt 2]; [VInt 3]]))),
          mkWorld []
            ([] ++ map (fun i => window_request bx "crm.deal.list" [] (0 + 50 * Z.of_nat i))
                       (seq 0 3))%list).
Proof.
  intros bx page1 page2 page3.
  apply (callMethod_list_pages_reversed 3 bx "crm.deal.list" [] 0 [page1; page2] page3
           [[VInt 1]; [VInt 2]; [VInt 3]] [] []).
  - reflexivity.
  - repeat constructor.
  - intros i e Hi. destruct i as [|[|i]]; simpl in Hi.
    + injection Hi as <-. reflexivity.
    + injection Hi as <-. reflexivity.
    + destruct i; discriminate.
  - reflexivity.
  - simpl. lia.
  - reflexivity.
Defined.

Lemma merged_lookup_snoc (ys : list value) (d : dict) (k : string) :
  merged_lookup (ys ++ [VDict d])%list k
  = match dict_get d k with
    | Some v => Some v
    | None => merged_lookup ys k
    end.
Proof. unfold merged_lookup. now rewrite fold_left_app. Qed.

Lemma merged_lookup_rev (ds : list dict) (k : string) :
  merged_lookup (map VDict (rev ds)) k = first_binding ds k.
Proof.
  induction ds as [|d ds IH]; [reflexivity|].
  cbn [rev]. rewrite map_app. cbn [map first_binding]. rewrite merged_lookup_snoc.
  destruct (dict_get d k); [reflexivity | exact IH].
Qed.

Lemma list_pages_of_mappings (ds : list dict) : list_pages (map VDict ds) = [].
Proof. induction ds as [|d ds IH]; [reflexivity | exact IH]. Qed.

Lemma dict_without_bindings (d : dict) : (forall k, dict_get d k = None) -> d = [].
Proof.
  destruct d as [|[k v] d]; [reflexivity|].
  intro H. specialize (H k). simpl in H. now rewrite String.eqb_refl in H.
Qed.

(** X18: over a run of pages whose payloads are all mappings, [callMethod]
    returns one mapping in which a key that several pages bind has the value
    of the page fetched first: the pages are merged in the reverse of the
    order they were fetched in, so the first page overwrites the later
    ones. *)
Theorem callMethod_mapping_pages_first_wins
  (fuel : nat) (self : Bitrix24) (method : string) (prm : dict) (s0 : Z)
  (pages : list dict) (last_page : dict) (ds : list dict)
  (rest : list reply) (tr : list event) :
  dict_get (default_start prm) "start" = Some (VInt s0) ->
  Forall (fun e => well_formed_page e = true) (pages ++ [last_page])%list ->
  (forall i e, nth_error pages i = Some e ->
               page_has_more e (s0 + 50 * Z.of_nat i) = true) ->
  page_has_more last_page (s0 + 50 * Z.of_nat (List.length pages)) = false ->
  List.length pages < fuel ->
  map page_result (pages ++ [last_page])%list = map VDict ds ->
  Forall (fun d => unique_keys d = true) ds ->
  exists merged,
    callMethod fuel self method prm
      (mkWorld (map (fun e => Json (VDict e)) (pages ++ [last_page]) ++ rest)%list tr)
    = Some (Ok (VDict merged),
            mkWorld rest
              (tr ++ map (fun i => window_request self method prm (s0 + 50 * Z.of_nat i))
                         (seq 0 (S (List.length pages))))%list)
    /\ forall k, dict_get merged k = first_binding ds k.
Proof.
  intros Hstart Hwf Hmore Hlast Hfuel Hres Huniq.
  rewrite (callMethod_of_iter _ _ _ _ _ _ _
             (callMethodIter_run fuel self method prm s0 pages last_page rest tr
                Hstart Hwf Hmore Hlast Hfuel)).
  rewrite Hres, <- map_rev. unfold dict in *.
  assert (Hpages : Forall (fun y => page_keys_unique y = true) (map VDict (rev ds))).
  { apply Forall_map. apply Forall_rev. exact Huniq. }
  destruct (merge_pages_fold _ (mkMerge [] [] None) Hpages) as (Hd & Hl & Hr).
  cbn zeta in Hd, Hl, Hr.
  destruct (fold_left merge_page (map VDict (rev ds)) (mkMerge [] [] None))
    as [D L R] eqn:Hfold.
  cbn [result_dict result_list last_r app] in Hd, Hl, Hr.
  rewrite list_pages_of_mappings in Hl. subst L.
  assert (HD : forall k, dict_get D k = first_binding ds k).
  { intro k. rewrite Hd. apply merged_lookup_rev. }
  assert (Hne : rev ds <> []).
  { intro H. apply (f_equal (@List.length _)) in H. rewrite length_rev in H.
    apply (f_equal (@List.length _)) in Hres.
    rewrite !length_map, length_app in Hres. simpl in H, Hres. lia. }
  destruct ds as [|d0 ds']; [now elim Hne|].
  assert (HR : R = Some (VDict d0)).
  { rewrite Hr. destruct (map VDict (rev (d0 :: ds'))) eqn:E.
    - apply (f_equal (@List.length _)) in E. rewrite length_map, length_rev in E.
      discriminate.
    - rewrite <- E. f_equal. cbn [rev]. rewrite map_app. cbn [map]. apply last_last. }
  clear Hr. subst R. exists D. split; [|exact HD].
  rewrite merge_return_cases. do 2 f_equal.
  destruct D as [|kv D']; [|reflexivity].
  replace (truthy (VDict [])) with false by reflexivity.
  replace (truthy (VList [])) with false by reflexivity.
  assert (Hd0 : d0 = []); [|now rewrite Hd0].
  apply dict_without_bindings. intro k.
  specialize (HD k). cbn [first_binding dict_get] in HD.
  destruct (dict_get d0 k); [discriminate | reflexivity].
Qed.

(** Two pages that both bind [a]: the value of the first page stays. *)
Lemma callMethod_mapping_pages_first_wins_witness :
  let bx := mkBitrix24 "https://example.bitrix24.com/rest/1/code" (VInt 60) in
  let d1 := [("a", VInt 1); ("b", VInt 1)] in
  let d2 := [("a", VInt 2); ("c", VInt 2)] in
  let page1 := [("result", VDict d1); ("next", VInt 50); ("total", VInt 70)] in
  let page2 := [("result", VDict d2); ("total", VInt 70)] in
  exists merged,
    callMethod 2 bx "crm.deal.fields" []
      (mkWorld (map (fun e => Json (VDict e)) ([page1] ++ [page2]) ++ [])%list [])
    = Some (Ok (VDict merged),
            mkWorld []
              ([] ++ map (fun i => window_request bx "crm.deal.fields" []
                                     (0 + 50 * Z.of_nat i)) (seq 0 2))%list)
    /\ forall k, dict_get merged k = first_binding [d1; d2] k.
Proof.
  intros bx d1 d2 page1 page2.
  apply (callMethod_mapping_pages_first_wins 2 bx "crm.deal.fields" [] 0 [page1] page2
           [d1; d2] [] []).
  - reflexivity.
  - repeat constructor.
  - intros i e Hi. destruct i as [|i]; simpl in Hi.
    + injection Hi as <-. reflexivity.
    + destruct i; discriminate.
  - reflexivity.
  - simpl. lia.
  - reflexivity.
  - repeat constructor.
Defined.

Lemma dict_get_app (a b : dict) (k : string) :
  dict_get (a ++ b)%list k
  = match dict_get a k with
    | Some v => Some v
    | None => dict_get b k
    end.
Proof.
  induction a as [|[k' v'] a IH]; [reflexivity|].
  simpl. now destruct (String.eqb k' k).
Qed.

Lemma dict_set_fresh (acc : dict) (k : string) (v : value) :
  dict_has acc k = false -> dict_set acc k v = (acc ++ [(k, v)])%list.
Proof.
  unfold dict_has. induction acc as [|[k' v'] acc IH]; [reflexivity|].
  simpl. destruct (String.eqb k' k); [discriminate|].
  intro H. now rewrite (IH H).
Qed.

(** Updating with a mapping whose keys are all new appends it. *)
Lemma dict_update_fresh (d : dict) :
  forall acc,
    unique_keys d = true ->
    (forall k, dict_has d k = true -> dict_has acc k = false) ->
    dict_update acc d = (acc ++ d)%list.
Proof.
  unfold dict_update.
  induction d as [|[k v] d IH]; intros acc Huniq Hfresh.
  - simpl. now rewrite app_nil_r.
  - simpl in Huniq. apply andb_prop in Huniq. destruct Huniq as [Hk Huniq].
    apply negb_true_iff in Hk.
    cbn [fold_left fst snd].
    rewrite dict_set_fresh.
    2:{ apply Hfresh. unfold dict_has. simpl. now rewrite String.eqb_refl. }
    rewrite (IH _ Huniq).
    + now rewrite <- app_assoc.
    + intros k' Hk'. unfold dict_has. rewrite dict_get_app.
      assert (Hacc : dict_has acc k' = false).
      { apply Hfresh. unfold dict_has in *. simpl.
        destruct (String.eqb k k'); [reflexivity | exact Hk']. }
      unfold dict_has in Hacc. destruct (dict_get acc k'); [discriminate|].
      simpl. destruct (String.eqb_spec k k') as [-> | _]; [|reflexivity].
      congruence.
Qed.

(** X19: for a method answered in one page, an envelope with a [result] and
    no [next] and no [error], [callMethod] returns the [result] as it is,
    whatever its shape, after a single request. *)
Theorem callMethod_single_page
  (fuel : nat) (self : Bitrix24) (method : string) (prm e : dict) (v : value)
  (rest : list reply) (tr : list event) :
  dict_has e "error" = false ->
  dict_has e "next" = false ->
  dict_get e "result" = Some v ->
  page_keys_unique v = true ->
  callMethod (S fuel) self method prm (mkWorld (Json (VDict e) :: rest) tr)
  = Some (Ok v,
          mkWorld rest (tr ++ [Sent (build_request self method (default_start prm))])%list).
Proof.
  intros Herr Hnext Hres Huniq.
  unfold callMethod.
  rewrite callMethodIter_unfold, (call_method_json _ self method _ e _ _ Herr).
  unfold has_more. cbn [py_contains bind_result]. rewrite Hnext.
  unfold yield_result. cbn [py_getitem]. rewrite Hres. cbn [app fold_left].
  f_equal. f_equal.
  destruct v as [| b | z | s | l | l | d]; try reflexivity.
  - cbn [merge_page result_dict result_list app]. rewrite merge_return_cases.
    replace (truthy (VDict [])) with false by reflexivity.
    now destruct l.
  - cbn [merge_page result_dict result_list]. simpl in Huniq.
    rewrite (dict_update_fresh d [] Huniq) by reflexivity.
    cbn [app]. rewrite merge_return_cases. now destruct d.
Qed.

(** A method that returns one mapping. *)
Lemma callMethod_single_page_witness :
  let bx := mkBitrix24 "https://example.bitrix24.com/rest/1/code" (VInt 60) in
  let v := VDict [("ID", VStr "7"); ("NAME", VStr "Ann")] in
  callMethod 1 bx "user.current" [] (mkWorld [Json (VDict [("result", v)]); NotJson] [])
  = Some (Ok v,
          mkWorld [NotJson] ([] ++ [Sent (build_request bx "user.current" (default_start []))])%list).
Proof.
  intros bx v.
  apply (callMethod_single_page 0 bx "user.current" [] [("result", v)] v [NotJson] []);
    reflexivity.
Defined.

Lemma merged_lookup_bound (ys : list value) (d : dict) (k : string) :
  In (VDict d) ys -> dict_has d k = true -> merged_lookup ys k <> None.
Proof.
  intros Hin Hk. unfold merged_lookup.
  set (step := fun (found : option value) (y : value) =>
                 match y with
                 | VDict d0 => match dict_get d0 k with Some v0 => Some v0 | None => found end
                 | _ => found
                 end).
  assert (Hkeep : forall l v, fold_left step l (Some v) <> None).
  { induction l as [|y l IH]; intro v; [discriminate|].
    cbn [fold_left]. unfold step at 2. destruct y as [| | | | | |d0]; try apply IH.
    destruct (dict_get d0 k); apply IH. }
  assert (Hgen : forall l found, In (VDict d) l -> fold_left step l found <> None).
  { induction l as [|y l IH]; intros found Hl; [contradiction|].
    cbn [fold_left]. destruct Hl as [-> | Hl]; [|now apply IH].
    unfold step at 2. unfold dict_has in Hk.
    destruct (dict_get d k) as [v|]; [apply Hkeep | discriminate]. }
  now apply Hgen.
Qed.

(** X20: mappings win over lists.  When one of the yielded pages is a
    non-empty mapping, [callMethod] returns the merge of the mapping-shaped
    pages alone: the rows of the list-shaped pages are left out. *)
Theorem callMethod_mapping_beats_list
  (fuel : nat) (self : Bitrix24) (method : string) (prm : dict) (w w' : world)
  (ys : list value) (d : dict) :
  callMethodIter fuel self method prm w = Some ((ys, None), w') ->
  Forall (fun y => page_keys_unique y = true) ys ->
  In (VDict d) ys ->
  d <> [] ->
  exists merged,
    callMethod fuel self method prm w = Some (Ok (VDict merged), w')
    /\ forall k, dict_get merged k = merged_lookup ys k.
Proof.
  intros Hiter Huniq Hin Hd.
  rewrite (callMethod_of_iter _ _ _ _ _ _ _ Hiter).
  destruct (merge_pages_fold ys (mkMerge [] [] None) Huniq) as (HD & _ & Hr).
  cbn zeta in HD, Hr.
  destruct (fold_left merge_page ys (mkMerge [] [] None)) as [D L R] eqn:Hfold.
  cbn [result_dict last_r] in HD, Hr.
  assert (HR : R = Some (last ys VNone)) by (rewrite Hr; now destruct ys).
  clear Hr. subst R. exists D. split; [|exact HD].
  rewrite merge_return_cases.
  destruct D as [|kv D']; [|reflexivity].
  exfalso. destruct d as [|[k v] d']; [now elim Hd|].
  apply (merged_lookup_bound ys ((k, v) :: d') k Hin).
  - unfold dict_has. simpl. now rewrite String.eqb_refl.
  - exact (eq_sym (HD k)).
Qed.

(** A list page followed by a mapping page. *)
Lemma callMethod_mapping_beats_list_witness :
  let bx := mkBitrix24 "https://example.bitrix24.com/rest/1/code" (VInt 60) in
  let page1 := [("result", VDict [("a", VInt 1)]); ("next", VInt 50); ("total", VInt 70)] in
  let page2 := [("result", VList [VInt 7; VInt 8]); ("total", VInt 70)] in
  let w := mkWorld [Json (VDict page1); Json (VDict page2)] [] in
  exists merged,
    callMethod 2 bx "crm.deal.list" [] w
    = Some (Ok (VDict merged),
            mkWorld []
              [Sent (build_request bx "crm.deal.list" [("start", VInt 0)]);
               Sent (build_request bx "crm.deal.list" [("start", VInt 50)])])
    /\ forall k,
         dict_get merged k = merged_lookup [VList [VInt 7; VInt 8]; VDict [("a", VInt 1)]] k.
Proof.
  intros bx page1 page2 w.
  apply (callMethod_mapping_beats_list 2 bx "crm.deal.list" [] w _
           [VList [VInt 7; VInt 8]; VDict [("a", VInt 1)]] [("a", VInt 1)]).
  - reflexivity.
  - repeat constructor.
  - right. left. reflexivity.
  - discriminate.
Defined.

(** ** Cursor bulk fetch, further *)

Lemma cursor_state_next (P0 f0 : dict) (id : value) :
  cursor_state P0 f0 (cursor_of P0 f0 id).
Proof.
  unfold cursor_state, cursor_of. split.
  - intro X. apply dict_set_set.
  - exists (dict_set f0 ">ID" id). split; [apply dict_get_set_same|].
    intro c. apply dict_set_set.
Qed.

(** One iteration of the loop, with the parameters of the call written
    out. *)
Lemma callMethodList_loop_step (fuel : nat) (self : Bitrix24) (method : string)
  (key : option string) (P0 f0 cur : dict) (id : value) (acc : list value) (w : world) :
  cursor_state P0 f0 cur ->
  callMethodList_loop (S fuel) self method key cur id acc w
  = match _call_method (S fuel) self method (cursor_of P0 f0 id) w with
    | None => None
    | Some (Raise e, w1) => Some (Raise e, w1)
    | Some (Ok envelope, w1) =>
        match py_getitem envelope "result" with
        | Raise e => Some (Raise e, w1)
        | Ok r =>
            if truthy (if isinstance_dict r then select_rows key r else r) then
              match (if isinstance_dict r then select_rows key r else r) with
              | VList rows | VTuple rows =>
                  match py_getitem (last rows VNone) "id" with
                  | Ok id' =>
                      callMethodList_loop fuel self method key (cursor_of P0 f0 id)
                        id' (acc ++ rows)%list w1
                  | Raise e => Some (Raise e, w1)
                  end
              | VStr _ => Some (Raise TypeError, w1)
              | VDict _ => Some (Raise (KeyError (VInt (-1))), w1)
              | _ => Some (Raise TypeError, w1)
              end
            else Some (Ok (VList acc), w1)
        end
    end.
Proof.
  intros (Hcur & flt & Hflt & Hid).
  rewrite callMethodList_loop_unfold, Hflt.
  change (dict_update flt [(">ID", id)]) with (dict_set flt ">ID" id).
  rewrite Hcur, Hid. reflexivity.
Qed.

Lemma last_cons_default {A} (x d : A) (l : list A) : last (x :: l) d = last l x.
Proof.
  revert x d. induction l as [|y l IH]; intros x d; [reflexivity|].
  change (last (x :: y :: l) d) with (last (y :: l) d). now rewrite !IH.
Qed.

(** The loop through pages that all have rows: it is the loop from the
    cursor of the last of them, the rows of all of them accumulated. *)
Lemma callMethodList_loop_descend
  (self : Bitrix24) (method : string) (key : option string) (P0 f0 : dict)
  (pages : list cursor_page) :
  Forall (cursor_page_ok key) pages ->
  forall (cur : dict) (id : value) (acc : list value) (tr : list event),
    cursor_state P0 f0 cur ->
    exists cur',
      cursor_state P0 f0 cur'
      /\ forall (fuel : nat) (tail : list reply),
           callMethodList_loop (List.length pages + fuel) self method key cur id acc
             (mkWorld (map (fun p => Json (VDict (cp_envelope p))) pages ++ tail)%list tr)
           = callMethodList_loop fuel self method key cur'
               (last (map cp_cursor pages) id)
               (acc ++ List.concat (map cp_rows pages))%list
               (mkWorld tail
                  (tr ++ map (fun c => Sent (build_request self method (cursor_of P0 f0 c)))
                             (removelast (id :: map cp_cursor pages)))%list).
Proof.
  induction 1 as [|p pages Hp _ IH]; intros cur id acc tr Hcur.
  - exists cur. split; [exact Hcur|]. intros fuel tail.
    cbn [List.length Nat.add map app List.concat removelast last].
    now rewrite !app_nil_r.
  - destruct Hp as (Herr & Hsel & Hrows & Hcursor).
    destruct (IH (cursor_of P0 f0 id) (cp_cursor p) (acc ++ cp_rows p)%list
                (tr ++ [Sent (build_request self method (cursor_of P0 f0 id))])%list
                (cursor_state_next P0 f0 id)) as (cur' & Hcur' & Heq).
    exists cur'. split; [exact Hcur'|]. intros fuel tail.
    change (List.length (p :: pages) + fuel) with (S (List.length pages + fuel)).
    rewrite (callMethodList_loop_step _ self method key P0 f0 cur id acc _ Hcur).
    change (map (fun p0 => Json (VDict (cp_envelope p0))) (p :: pages) ++ tail)%list
      with (Json (VDict (cp_envelope p))
              :: (map (fun p0 => Json (VDict (cp_envelope p0))) pages ++ tail))%list.
    rewrite (call_method_json _ self method _ (cp_envelope p) _ _ Herr).
    destruct (selected_rows_result key _ _ Hsel) as (r0 & -> & ->).
    replace (truthy (VList (cp_rows p))) with true
      by (unfold truthy; now destruct (cp_rows p)).
    rewrite Hcursor, Heq.
    cbn [map List.concat]. rewrite last_cons_default, <- !app_assoc.
    reflexivity.
Qed.

(** What [callMethodList] hands to its loop. *)
Lemma callMethodList_entry (fuel : nat) (self : Bitrix24) (method : string) (id : value)
  (key : option string) (prm : dict) :
  filter_is_mapping prm = true ->
  exists P0 f0 cur,
    cursor_state P0 f0 cur
    /\ (forall c, cursor_of P0 f0 c = cursor_params prm c)
    /\ forall w, callMethodList fuel self method id key prm w
                 = callMethodList_loop fuel self method key cur id [] w.
Proof.
  intro Hfilter.
  set (P1 := dict_set (dict_set prm "start" (VInt (-1))) "order"
               (VDict [("ID", VStr "asc")])).
  set (f0 := match dict_get P1 "filter" with Some (VDict f) => f | _ => [] end).
  assert (HP1 : dict_get P1 "filter" = dict_get prm "filter").
  { unfold P1. rewrite !dict_get_set_other by discriminate. reflexivity. }
  exists P1, f0,
    (if negb (dict_has P1 "filter") then dict_set P1 "filter" (VDict []) else P1).
  split; [split|split].
  - intro X. destruct (dict_has P1 "filter"); simpl; [reflexivity | apply dict_set_set].
  - exists f0. split; [|reflexivity].
    unfold f0, dict_has. unfold filter_is_mapping in Hfilter. rewrite HP1.
    destruct (dict_get prm "filter") as [[| | | | | |f]|] eqn:E; try discriminate; simpl.
    + exact HP1.
    + apply dict_get_set_same.
  - reflexivity.
  - reflexivity.
Qed.

Lemma cursor_trace {A B} (f : A -> B) (tr : list B) (id : A) (cs : list A) :
  ((tr ++ map f (removelast (id :: cs))) ++ [f (last cs id)])%list
  = (tr ++ map f (id :: cs))%list.
Proof.
  rewrite <- app_assoc. f_equal.
  rewrite (app_removelast_last (l := id :: cs) id) at 2 by discriminate.
  now rewrite map_app, last_cons_default.
Qed.

(** X21: no partial rows.  When the pages fetched so far all had rows and
    the next request fails, whether for an [error] field, an undecodable
    body or a transport failure, [callMethodList] raises that exception:
    the rows gathered so far are not returned. *)
Theorem callMethodList_failure_discards_rows
  (fuel : nat) (self : Bitrix24) (method : string) (id0 : value) (key : option string)
  (prm : dict) (pages : list cursor_page) (rp : reply) (e : exn) (rest : list reply)
  (tr : list event) :
  filter_is_mapping prm = true ->
  Forall (cursor_page_ok key) pages ->
  reply_outcome rp = Raise e ->
  List.length pages < fuel ->
  callMethodList fuel self method id0 key prm
    (mkWorld (map (fun p => Json (VDict (cp_envelope p))) pages ++ rp :: rest)%list tr)
  = Some (Raise e,
          mkWorld rest
            (tr ++ map (fun c => Sent (build_request self method (cursor_params prm c)))
                       (id0 :: map cp_cursor pages))%list).
Proof.
  intros Hfilter Hpages Hrp Hfuel.
  destruct (callMethodList_entry fuel self method id0 key prm Hfilter)
    as (P0 & f0 & cur & Hcur & Hparams & ->).
  destruct (callMethodList_loop_descend self method key P0 f0 pages Hpages cur id0 [] tr Hcur)
    as (cur' & Hcur' & Heq).
  rewrite (fuel_split _ _ Hfuel), Heq.
  rewrite (callMethodList_loop_step _ self method key P0 f0 cur' _ _ _ Hcur').
  rewrite call_method_step. unfold next_reply, after_request. cbn [incoming trace tl].
  rewrite Hrp.
  pose proof (cursor_trace (fun c => Sent (build_request self method (cursor_of P0 f0 c)))
                tr id0 (map cp_cursor pages)) as Htrace.
  cbv beta in Htrace. rewrite Htrace. do 4 f_equal.
  apply map_ext. intro c. now rewrite Hparams.
Qed.

(** A page of two rows, then a transport failure. *)
Lemma callMethodList_failure_discards_rows_witness :
  let bx := mkBitrix24 "https://example.bitrix24.com/rest/1/code" (VInt 60) in
  let row (n : value) := VDict [("id", n)] in
  let page1 := mkCursorPage [("result", VList [row (VInt 1); row (VInt 2)])]
                 [row (VInt 1); row (VInt 2)] (VInt 2) in
  callMethodList 2 bx "crm.deal.list" (VInt 0) None []
    (mkWorld (map (fun p => Json (VDict (cp_envelope p))) [page1]
              ++ Fails "ReadTimeout" :: [])%list [])
  = Some (Raise (TransportError "ReadTimeout"),
          mkWorld []
            ([] ++ map (fun c => Sent (build_request bx "crm.deal.list" (cursor_params [] c)))
                       (VInt 0 :: map cp_cursor [page1]))%list).
Proof.
  intros bx row page1.
  apply (callMethodList_failure_discards_rows 2 bx "crm.deal.list" (VInt 0) None []
           [page1] (Fails "ReadTimeout") (TransportError "ReadTimeout") [] []).
  - reflexivity.
  - repeat constructor; discriminate.
  - reflexivity.
  - simpl. lia.
Defined.

(** X22: a [filter] argument that is not a mapping makes [callMethodList]
    raise an [AttributeError] before any request is sent. *)
Theorem callMethodList_filter_not_mapping
  (fuel : nat) (self : Bitrix24) (method : string) (id0 : value) (key : option string)
  (prm : dict) (flt : value) (w : world) :
  dict_get prm "filter" = Some flt ->
  isinstance_dict flt = false ->
  callMethodList (S fuel) self method id0 key prm w = Some (Raise AttributeError, w).
Proof.
  intros Hget Hflt. unfold callMethodList.
  set (P1 := dict_set (dict_set prm "start" (VInt (-1))) "order"
               (VDict [("ID", VStr "asc")])).
  assert (HP1 : dict_get P1 "filter" = Some flt).
  { unfold P1. rewrite !dict_get_set_other by discriminate. exact Hget. }
  replace (dict_has P1 "filter") with true by (unfold dict_has; now rewrite HP1).
  cbn [negb]. rewrite callMethodList_loop_unfold, HP1.
  destruct flt; try reflexivity. discriminate.
Qed.

(** A filter given as a list of pairs. *)
Lemma callMethodList_filter_not_mapping_witness :
  let bx := mkBitrix24 "https://example.bitrix24.com/rest/1/code" (VInt 60) in
  let prm := [("filter", VList [VStr "STAGE_ID"; VStr "NEW"])] in
  let w := mkWorld [Json (VDict [("result", VList [])])] [] in
  callMethodList 1 bx "crm.deal.list" (VInt 0) None prm w = Some (Raise AttributeError, w).
Proof.
  intros bx prm w.
  apply (callMethodList_filter_not_mapping 0 bx "crm.deal.list" (VInt 0) None prm
           (VList [VStr "STAGE_ID"; VStr "NEW"]) w); reflexivity.
Defined.

(** X23: when the [result] of the first reply is a mapping and no [key]
    is given, or the [key] given is not in the mapping, [callMethodList]
    stops after that one request and returns the empty list, whatever the
    mapping holds. *)
Theorem callMethodList_mapping_without_key
  (fuel : nat) (self : Bitrix24) (method : string) (id0 : value) (key : option string)
  (prm e d : dict) (rest : list reply) (tr : list event) :
  filter_is_mapping prm = true ->
  dict_has e "error" = false ->
  dict_get e "result" = Some (VDict d) ->
  match key with None => true | Some k => negb (dict_has d k) end = true ->
  callMethodList (S fuel) self method id0 key prm (mkWorld (Json (VDict e) :: rest) tr)
  = Some (Ok (VList []),
          mkWorld rest (tr ++ [Sent (build_request self method (cursor_params prm id0))])%list).
Proof.
  intros Hfilter Herr Hres Hkey.
  destruct (callMethodList_entry (S fuel) self method id0 key prm Hfilter)
    as (P0 & f0 & cur & Hcur & Hparams & ->).
  rewrite (callMethodList_loop_step _ self method key P0 f0 cur _ _ _ Hcur).
  rewrite (call_method_json _ self method _ e _ _ Herr). cbn [py_getitem]. rewrite Hres.
  cbn [isinstance_dict select_rows].
  replace (match key with
           | Some k => match dict_get d k with Some v => v | None => VList [] end
           | None => VList []
           end) with (VList []).
  - now rewrite Hparams.
  - destruct key as [k|]; [|reflexivity]. apply negb_true_iff in Hkey.
    unfold dict_has in Hkey. now destruct (dict_get d k).
Qed.

(** A result that holds its rows under [tasks], fetched without a key. *)
Lemma callMethodList_mapping_without_key_witness :
  let bx := mkBitrix24 "https://example.bitrix24.com/rest/1/code" (VInt 60) in
  let d := [("tasks", VList [VDict [("id", VInt 1)]])] in
  callMethodList 1 bx "tasks.task.list" (VInt 0) None []
    (mkWorld [Json (VDict [("result", VDict d)]); NotJson] [])
  = Some (Ok (VList []),
          mkWorld [NotJson]
            ([] ++ [Sent (build_request bx "tasks.task.list" (cursor_params [] (VInt 0)))])%list).
Proof.
  intros bx d.
  apply (callMethodList_mapping_without_key 0 bx "tasks.task.list" (VInt 0) None []
           [("result", VDict d)] d [NotJson] []); reflexivity.
Defined.

(** X24: the cursor needs the [id] field of the last row of every page
    with rows.  When the last row of a page has none, or is not a mapping,
    [callMethodList] raises the [KeyError] or [TypeError] of that lookup,
    and the rows of that page and of the pages before it are not
    returned. *)
Theorem callMethodList_last_row_without_id
  (fuel : nat) (self : Bitrix24) (method : string) (id0 : value) (key : option string)
  (prm : dict) (pages : list cursor_page) (bad : dict) (rows : list value) (e : exn)
  (rest : list reply) (tr : list event) :
  filter_is_mapping prm = true ->
  Forall (cursor_page_ok key) pages ->
  dict_has bad "error" = false ->
  selected_rows key bad = Some (VList rows) ->
  rows <> [] ->
  py_getitem (last rows VNone) "id" = Raise e ->
  List.length pages < fuel ->
  callMethodList fuel self method id0 key prm
    (mkWorld (map (fun p => Json (VDict (cp_envelope p))) pages
              ++ Json (VDict bad) :: rest)%list tr)
  = Some (Raise e,
          mkWorld rest
            (tr ++ map (fun c => Sent (build_request self method (cursor_params prm c)))
                       (id0 :: map cp_cursor pages))%list).
Proof.
  intros Hfilter Hpages Herr Hsel Hrows Hid Hfuel.
  destruct (callMethodList_entry fuel self method id0 key prm Hfilter)
    as (P0 & f0 & cur & Hcur & Hparams & ->).
  destruct (callMethodList_loop_descend self method key P0 f0 pages Hpages cur id0 [] tr Hcur)
    as (cur' & Hcur' & Heq).
  rewrite (fuel_split _ _ Hfuel), Heq.
  rewrite (callMethodList_loop_step _ self method key P0 f0 cur' _ _ _ Hcur').
  rewrite (call_method_json _ self method _ bad _ _ Herr).
  destruct (selected_rows_result key _ _ Hsel) as (r0 & -> & ->).
  replace (truthy (VList rows)) with true by (unfold truthy; now destruct rows).
  rewrite Hid.
  pose proof (cursor_trace (fun c => Sent (build_request self method (cursor_of P0 f0 c)))
                tr id0 (map cp_cursor pages)) as Htrace.
  cbv beta in Htrace. rewrite Htrace. do 4 f_equal.
  apply map_ext. intro c. now rewrite Hparams.
Qed.

(** A page whose last row has the key [ID] in capitals, not [id]. *)
Lemma callMethodList_last_row_without_id_witness :
  let bx := mkBitrix24 "https://example.bitrix24.com/rest/1/code" (VInt 60) in
  let rows := [VDict [("id", VInt 1)]; VDict [("ID", VInt 2)]] in
  callMethodList 1 bx "crm.deal.list" (VInt 0) None []
    (mkWorld (map (fun p => Json (VDict (cp_envelope p))) []
              ++ Json (VDict [("result", VList rows)]) :: [])%list [])
  = Some (Raise (KeyError (VStr "id")),
          mkWorld []
            ([] ++ map (fun c => Sent (build_request bx "crm.deal.list" (cursor_params [] c)))
                       (VInt 0 :: map cp_cursor []))%list).
Proof.
  intros bx rows.
  apply (callMethodList_last_row_without_id 1 bx "crm.deal.list" (VInt 0) None [] []
           [("result", VList rows)] rows (KeyError (VStr "id")) [] []);
    try reflexivity.
  - constructor.
  - discriminate.
  - simpl. lia.
Defined.

(** X25: what a cursor call carries.  [callMethodList] replaces the
    caller's [start] and [order] and the [>ID] clause of the caller's
    filter, and keeps every other parameter and every other clause of the
    filter as the caller gave them. *)
Theorem callMethodList_keeps_other_parameters
  (fuel : nat) (self : Bitrix24) (method : string) (id0 : value) (key : option string)
  (prm e : dict) (rest : list reply) (tr : list event) :
  filter_is_mapping prm = true ->
  dict_has e "error" = false ->
  page_is_empty key e = true ->
  exists sent,
    callMethodList (S fuel) self method id0 key prm (mkWorld (Json (VDict e) :: rest) tr)
    = Some (Ok (VList []),
            mkWorld rest (tr ++ [Sent (build_request self method sent)])%list)
    /\ dict_get sent "start" = Some (VInt (-1))
    /\ dict_get sent "order" = Some (VDict [("ID", VStr "asc")])
    /\ (forall k, k <> "start" -> k <> "order" -> k <> "filter" ->
                  dict_get sent k = dict_get prm k)
    /\ exists flt,
         dict_get sent "filter" = Some (VDict flt)
         /\ dict_get flt ">ID" = Some id0
         /\ forall c, c <> ">ID" -> dict_get flt c = dict_get (caller_filter prm) c.
Proof.
  intros Hfilter Herr Hempty.
  exists (cursor_params prm id0). split.
  - destruct (callMethodList_entry (S fuel) self method id0 key prm Hfilter)
      as (P0 & f0 & cur & Hcur & Hparams & ->).
    destruct Hcur as (Hcur & flt & Hflt & Hid).
    pose proof (callMethodList_loop_pages self method key P0 f0 e rest []
                  (Forall_nil _) Herr Hempty (S fuel) cur flt id0 [] tr Hcur Hflt Hid
                  (Nat.lt_0_succ fuel)) as Hrun.
    cbn [map app List.concat] in Hrun. rewrite Hrun.
    fold (cursor_of P0 f0 id0). now rewrite Hparams.
  - set (P1 := dict_set (dict_set prm "start" (VInt (-1))) "order"
                 (VDict [("ID", VStr "asc")])).
    assert (HP1 : dict_get P1 "filter" = dict_get prm "filter").
    { unfold P1. rewrite !dict_get_set_other by discriminate. reflexivity. }
    unfold cursor_params. fold P1. rewrite HP1. fold (caller_filter prm).
    split; [|split; [|split]].
    + unfold P1. rewrite !dict_get_set_other by discriminate. apply dict_get_set_same.
    + unfold P1. rewrite dict_get_set_other by discriminate. apply dict_get_set_same.
    + intros k Hs Ho Hf. unfold P1.
      rewrite !dict_get_set_other by (intro Heq; symmetry in Heq; contradiction).
      reflexivity.
    + exists (dict_set (caller_filter prm) ">ID" id0).
      split; [apply dict_get_set_same|]. split; [apply dict_get_set_same|].
      intros c Hc. apply dict_get_set_other. intro Heq. symmetry in Heq. contradiction.
Qed.

(** A caller who passes a page size, a filter and a start of its own. *)
Lemma callMethodList_keeps_other_parameters_witness :
  let bx := mkBitrix24 "https://example.bitrix24.com/rest/1/code" (VInt 60) in
  let prm := [("select", VList [VStr "ID"]); ("start", VInt 100);
              ("filter", VDict [("STAGE_ID", VStr "NEW"); (">ID", VInt 999)])] in
  exists sent,
    callMethodList 1 bx "crm.deal.list" (VInt 0) None prm
      (mkWorld [Json (VDict [("result", VList [])])] [])
    = Some (Ok (VList []),
            mkWorld [] ([] ++ [Sent (build_request bx "crm.deal.list" sent)])%list)
    /\ dict_get sent "start" = Some (VInt (-1))
    /\ dict_get sent "order" = Some (VDict [("ID", VStr "asc")])
    /\ (forall k, k <> "start" -> k <> "order" -> k <> "filter" ->
                  dict_get sent k = dict_get prm k)
    /\ exists flt,
         dict_get sent "filter" = Some (VDict flt)
         /\ dict_get flt ">ID" = Some (VInt 0)
         /\ forall c, c <> ">ID" -> dict_get flt c = dict_get (caller_filter prm) c.
Proof.
  intros bx prm.
  apply (callMethodList_keeps_other_parameters 0 bx "crm.deal.list" (VInt 0) None prm
           [("result", VList [])] [] []); reflexivity.
Defined.
